(** * FirmwareUpdateChecker: the extension controller of the firmware-update
      plugin (plugins/FirmwareUpdateChecker/FirmwareUpdateChecker.py).

    The extension is a Python object with four attributes that is driven by
    host signals.  Its methods are embedded as computations in a small
    state / event-log / exception monad: the state is the object's
    attributes, the event log records every call the methods make into the
    host (preferences, signals, logger, desktop services, job queue), and an
    outcome says whether the method returned or raised. *)

From Stdlib Require Import Ascii String.
From stdpp Require Import base gmap sets list strings.

(** ** Host-side values *)

(** A value handed to [Preferences.addPreference] or read back with
    [Preferences.getValue]. *)
Inductive PrefValue :=
  | PrefBool (b : bool)
  | PrefStr (s : string).

(** Python truthiness, as used by [if preferences.getValue(...)]. *)
Definition truthy (v : PrefValue) : bool :=
  match v with
  | PrefBool b => b
  | PrefStr s => if decide (s = "") then false else true
  end.

(** The classes of the containers a [ContainerRegistry] announces. *)
Inductive ContainerClass :=
  | GlobalStack
  | ExtruderStack
  | ContainerStack
  | InstanceContainer
  | DefinitionContainer.

(** [type(container).__name__], as it appears in an AttributeError. *)
Definition class_name (cls : ContainerClass) : string :=
  match cls with
  | GlobalStack => "GlobalStack"
  | ExtruderStack => "ExtruderStack"
  | ContainerStack => "ContainerStack"
  | InstanceContainer => "InstanceContainer"
  | DefinitionContainer => "DefinitionContainer"
  end.

Record MachineDefinition := { getName : string }.

(** A container object.  [definition] is [None] when the object has no
    [definition] attribute. *)
Record Container := {
  getId : string;
  class_of : ContainerClass;
  definition : option MachineDefinition;
}.

(** [isinstance(container, GlobalStack)]; [None] is an instance of nothing. *)
Definition isinstance_GlobalStack (container : option Container) : bool :=
  match container with
  | Some c => match class_of c with GlobalStack => true | _ => false end
  | None => false
  end.

(** The notification message handed to the action callback. *)
Record FirmwareUpdateCheckerMessage := { getMachineId : string }.

(** ** The lookup table *)

Record FirmwareMetadata := {
  latest_version : string;
  redirect_user : string;
}.

(** Modelled from the spec: FirmwareUpdateCheckerLookup (its module is not
    part of the sources at hand).  The lookup table is a static mapping from
    machine id to firmware metadata (latest version, redirect/download URL). *)
Abbreviation FirmwareUpdateCheckerLookup := (gmap string FirmwareMetadata).

(** Modelled from the spec: FirmwareUpdateCheckerLookup.getMachineIds, the
    machine ids of the mapping. *)
Definition getMachineIds (lk : FirmwareUpdateCheckerLookup) : list string :=
  elements (dom lk).

(** Modelled from the spec: FirmwareUpdateCheckerLookup.getRedirectUserFor,
    the redirect/download URL of a machine id, [None] when the table has no
    entry for it. *)
Definition getRedirectUserFor (lk : FirmwareUpdateCheckerLookup)
    (machine_id : string) : option string :=
  redirect_user <$> lk !! machine_id.

(** ** Signals, slots and jobs *)

(** The bound methods of the extension that are handed out as callbacks. *)
Inductive BoundMethod :=
  | Slot_onActionTriggered
  | Slot_onContainerAdded
  | Slot_onJobFinished
  | Slot_onPluginsLoaded.

(** A [FirmwareUpdateCheckerJob] as the extension sees it: the keyword
    arguments it was constructed with. *)
Record FirmwareUpdateCheckerJob := {
  job_container : option Container;
  job_silent : bool;
  job_lookups : option FirmwareUpdateCheckerLookup;
  job_callback : BoundMethod;
}.

Inductive Signal :=
  | containerAdded
  | pluginsLoaded
  | finished (job : FirmwareUpdateCheckerJob).

(** Calls into the host, in program order. *)
Inductive Event :=
  | AddPreference (key : string) (default : PrefValue)
  | Connect (signal : Signal) (slot : BoundMethod)
  | LookupLoaded (json_path : string)
  | OpenUrl (url : string)
  | Log (level : string) (msg : string)
  | JobCreated (job : FirmwareUpdateCheckerJob)
  | JobStarted (job : FirmwareUpdateCheckerJob).

(** What the host answers when asked. *)
Record Host := {
  Preferences_getValue : string -> PrefValue;
  PluginRegistry_getPluginPath : string -> string;
  QDesktopServices_openUrl : string -> bool;
  (** the table [FirmwareUpdateCheckerLookup(json_path)] builds *)
  machines_json : string -> FirmwareUpdateCheckerLookup;
}.

(** ** The extension object *)

Record FirmwareUpdateChecker := {
  _download_url : option string;
  _check_job : option FirmwareUpdateCheckerJob;
  _checked_printer_names : gset string;
  _lookups : option FirmwareUpdateCheckerLookup;
}.

Inductive Exn :=
  | AttributeError (obj attr : string).

Inductive Outcome (A : Type) :=
  | Returned (a : A)
  | Raised (e : Exn).
Arguments Returned {A} a.
Arguments Raised {A} e.

(** A method body: from the attributes before the call to the outcome, the
    attributes after it and the host calls made. *)
Definition M (A : Type) : Type :=
  FirmwareUpdateChecker -> Outcome A * FirmwareUpdateChecker * list Event.

#[global] Instance M_ret : MRet M := fun A a self => (Returned a, self, []).

#[global] Instance M_bind : MBind M := fun A B k m self =>
  match m self with
  | (Returned a, self1, evs1) =>
      match k a self1 with
      | (o, self2, evs2) => (o, self2, evs1 ++ evs2)
      end
  | (Raised e, self1, evs1) => (Raised e, self1, evs1)
  end.

Definition raise {A} (e : Exn) : M A := fun self => (Raised e, self, []).
Definition emit (ev : Event) : M unit := fun self => (Returned tt, self, [ev]).
Definition get {A} (attr : FirmwareUpdateChecker -> A) : M A :=
  fun self => (Returned (attr self), self, []).
Definition modify (f : FirmwareUpdateChecker -> FirmwareUpdateChecker) : M unit :=
  fun self => (Returned tt, f self, []).

Definition outcome_of {A} (r : Outcome A * FirmwareUpdateChecker * list Event) :
    Outcome A := r.1.1.
Definition self_of {A} (r : Outcome A * FirmwareUpdateChecker * list Event) :
    FirmwareUpdateChecker := r.1.2.
Definition events_of {A} (r : Outcome A * FirmwareUpdateChecker * list Event) :
    list Event := r.2.

(** Attribute assignments. *)
Definition set_check_job (j : option FirmwareUpdateCheckerJob) : M unit :=
  modify (fun self =>
    {| _download_url := _download_url self; _check_job := j;
       _checked_printer_names := _checked_printer_names self;
       _lookups := _lookups self |}).

Definition set_lookups (lk : option FirmwareUpdateCheckerLookup) : M unit :=
  modify (fun self =>
    {| _download_url := _download_url self; _check_job := _check_job self;
       _checked_printer_names := _checked_printer_names self;
       _lookups := lk |}).

(** [self._checked_printer_names.add(name)] *)
Definition checked_printer_names_add (name : string) : M unit :=
  modify (fun self =>
    {| _download_url := _download_url self; _check_job := _check_job self;
       _checked_printer_names := {[name]} ∪ _checked_printer_names self;
       _lookups := _lookups self |}).

(** [for x in xs: body(x)] *)
Fixpoint for_each {A} (xs : list A) (body : A -> M unit) : M unit :=
  match xs with
  | [] => mret tt
  | x :: xs' => body x;; for_each xs' body
  end.

(** [os.path.join(a, b)] on a POSIX host. *)
Definition os_path_join (a b : string) : string :=
  match b with
  | String "/" _ => b
  | _ =>
    if decide (a = "") then b
    else match String.get (String.length a - 1) a with
         | Some "/"%char => a +:+ b
         | _ => a +:+ "/" +:+ b
         end
  end.
Arguments os_path_join : simpl never.

Definition set_download_url (url : option string) : M unit :=
  modify (fun self =>
    {| _download_url := url; _check_job := _check_job self;
       _checked_printer_names := _checked_printer_names self;
       _lookups := _lookups self |}).

Definition set_checked_printer_names (names : gset string) : M unit :=
  modify (fun self =>
    {| _download_url := _download_url self; _check_job := _check_job self;
       _checked_printer_names := names;
       _lookups := _lookups self |}).

(** The object as allocated, before [__init__] has assigned anything. *)
Definition blank : FirmwareUpdateChecker :=
  {| _download_url := None; _check_job := None;
     _checked_printer_names := ∅; _lookups := None |}.

(** Host calls. *)
Definition Preferences_addPreference (key : string) (default : PrefValue) : M unit :=
  emit (AddPreference key default).
Definition Logger_log (level msg : string) : M unit := emit (Log level msg).
Definition connect (signal : Signal) (slot : BoundMethod) : M unit :=
  emit (Connect signal slot).

(** [container.definition.getName()]: reading [definition] raises on None
    and on an object of a class without that attribute. *)
Definition container_definition_getName (container : option Container) : M string :=
  match container with
  | None => raise (AttributeError "NoneType" "definition")
  | Some c =>
    match definition c with
    | None => raise (AttributeError (class_name (class_of c)) "definition")
    | Some d => mret (getName d)
    end
  end.

(** ** Sample values *)

Definition um3 : FirmwareMetadata :=
  {| latest_version := "5.2.11";
     redirect_user := "https://ultimaker.com/firmware" |}.

Definition sample_table : FirmwareUpdateCheckerLookup :=
  <["9066" := um3]> (<["9511" := um3]> ∅).

Definition sample_host : Host :=
  {| Preferences_getValue := fun _ => PrefBool true;
     PluginRegistry_getPluginPath := fun _ => "/opt/cura/plugins/FirmwareUpdateChecker";
     QDesktopServices_openUrl := fun _ => false;
     machines_json := fun _ => sample_table |}.

(** The same host after the user has switched automatic update checks off. *)
Definition host_updates_off : Host :=
  {| Preferences_getValue := fun _ => PrefBool false;
     PluginRegistry_getPluginPath := PluginRegistry_getPluginPath sample_host;
     QDesktopServices_openUrl := QDesktopServices_openUrl sample_host;
     machines_json := machines_json sample_host |}.

Definition sample_key (machine_id : string) : string :=
  "info/latest_checked_firmware_for_" +:+ machine_id.

Definition printer_a : Container :=
  {| getId := "printer_a"; class_of := GlobalStack;
     definition := Some {| getName := "Ultimaker 3" |} |}.

Definition printer_b : Container :=
  {| getId := "printer_b"; class_of := GlobalStack;
     definition := Some {| getName := "Ultimaker 3" |} |}.

Definition loaded_and_checked : FirmwareUpdateChecker :=
  {| _download_url := None; _check_job := None;
     _checked_printer_names := {["Ultimaker 3"]};
     _lookups := Some sample_table |}.

Definition printer_s5 : Container :=
  {| getId := "printer_s5"; class_of := GlobalStack;
     definition := Some {| getName := "Ultimaker S5" |} |}.

(** An object of a class without a [definition] attribute, such as a quality
    container. *)
Definition quality_draft : Container :=
  {| getId := "quality_draft"; class_of := InstanceContainer;
     definition := None |}.

(** ** The methods *)

Section Extension.

Variable host : Host.

(** [FirmwareUpdateCheckerMessage.STR_ACTION_DOWNLOAD] and
    [getSettingsKeyForMachine] live in sibling modules of the plugin. *)
Variable STR_ACTION_DOWNLOAD : string.
Variable getSettingsKeyForMachine : string -> string.

Definition __init__ : M unit :=
  Preferences_addPreference "info/automatic_update_check" (PrefBool true);;
  (if truthy (Preferences_getValue host "info/automatic_update_check")
   then connect containerAdded Slot_onContainerAdded
   else mret tt);;
  set_download_url None;;
  set_check_job None;;
  set_checked_printer_names ∅;;
  set_lookups None;;
  connect pluginsLoaded Slot_onPluginsLoaded.

Definition _onActionTriggered (message : FirmwareUpdateCheckerMessage)
    (action : string) : M unit :=
  if decide (action = STR_ACTION_DOWNLOAD) then
    let machine_id := getMachineId message in
    lookups ← get _lookups;
    match lookups with
    | None => raise (AttributeError "NoneType" "getRedirectUserFor")
    | Some lk =>
      match getRedirectUserFor lk machine_id with
      | Some download_url =>
        emit (OpenUrl download_url);;
        if QDesktopServices_openUrl host download_url then
          Logger_log "i" ("Redirected browser to " +:+ download_url +:+
                          " to show newly available firmware.")
        else
          Logger_log "e" ("Can't reach URL: " +:+ download_url)
      | None =>
        Logger_log "e" ("Can't find URL for " +:+ machine_id)
      end
    end
  else mret tt.

Definition _onJobFinished : M unit := set_check_job None.

Definition _onPluginsLoaded : M unit :=
  lookups ← get _lookups;
  match lookups with
  | Some _ => mret tt
  | None =>
    let json_path :=
      os_path_join (PluginRegistry_getPluginPath host "FirmwareUpdateChecker")
                   "resources/machines.json" in
    emit (LookupLoaded json_path);;
    set_lookups (Some (machines_json host json_path));;
    lookups ← get _lookups;
    match lookups with
    | None => raise (AttributeError "NoneType" "getMachineIds")
    | Some lk =>
      for_each (getMachineIds lk) (fun machine_id =>
        Preferences_addPreference (getSettingsKeyForMachine machine_id) (PrefStr ""))
    end
  end.

Definition checkFirmwareVersion (container : option Container)
    (silent : bool) : M unit :=
  lookups ← get _lookups;
  (match lookups with None => _onPluginsLoaded | Some _ => mret tt end);;
  container_name ← container_definition_getName container;
  names ← get _checked_printer_names;
  if decide (container_name ∈ names) then mret tt
  else
    checked_printer_names_add container_name;;
    lookups ← get _lookups;
    let job := {| job_container := container; job_silent := silent;
                  job_lookups := lookups;
                  job_callback := Slot_onActionTriggered |} in
    emit (JobCreated job);;
    set_check_job (Some job);;
    check_job ← get _check_job;
    match check_job with
    | None => raise (AttributeError "NoneType" "start")
    | Some j => emit (JobStarted j);; connect (finished j) Slot_onJobFinished
    end.

Definition _onContainerAdded (container : option Container) : M unit :=
  if isinstance_GlobalStack container then checkFirmwareVersion container true
  else mret tt.

(** *** The extension inside the host *)

(** The slots a run of host calls connected to [containerAdded]. *)
Definition containerAdded_slots (evs : list Event) : list BoundMethod :=
  omap (fun ev => match ev with
                  | Connect containerAdded slot => Some slot
                  | _ => None
                  end) evs.

(** [ContainerRegistry.containerAdded.emit(container)]: every connected
    slot is called with the container. *)
Definition containerAdded_emit (slots : list BoundMethod)
    (container : option Container) : M unit :=
  for_each slots (fun slot =>
    match slot with
    | Slot_onContainerAdded => _onContainerAdded container
    | _ => mret tt
    end).

(** The calls the host can make on the extension once it is constructed. *)
Inductive Call :=
  | Call_onActionTriggered (message : FirmwareUpdateCheckerMessage) (action : string)
  | Call_onContainerAdded (container : option Container)
  | Call_onJobFinished
  | Call_onPluginsLoaded
  | Call_checkFirmwareVersion (container : option Container) (silent : bool).

Definition perform (c : Call) : M unit :=
  match c with
  | Call_onActionTriggered message action => _onActionTriggered message action
  | Call_onContainerAdded container => _onContainerAdded container
  | Call_onJobFinished => _onJobFinished
  | Call_onPluginsLoaded => _onPluginsLoaded
  | Call_checkFirmwareVersion container silent => checkFirmwareVersion container silent
  end.

(** A process lifetime: construction, then any sequence of calls.  A call
    that raises leaves the attributes as they were at the raise. *)
Fixpoint run (calls : list Call) (self : FirmwareUpdateChecker) :
    FirmwareUpdateChecker * list Event :=
  match calls with
  | [] => (self, [])
  | c :: calls' =>
    let r := perform c self in
    let r' := run calls' (self_of r) in
    (r'.1, events_of r ++ r'.2)
  end.

Definition lifetime (calls : list Call) : FirmwareUpdateChecker * list Event :=
  let r := __init__ blank in
  let r' := run calls (self_of r) in
  (r'.1, events_of r ++ r'.2).

(** The attribute states the extension can be in. *)
Inductive reachable : FirmwareUpdateChecker -> Prop :=
  | reachable_init : reachable (self_of (__init__ blank))
  | reachable_call self c :
      reachable self -> reachable (self_of (perform c self)).

(** Counting host calls in an event log. *)
Definition is_LookupLoaded (ev : Event) : bool :=
  match ev with LookupLoaded _ => true | _ => false end.
Definition is_JobCreated (ev : Event) : bool :=
  match ev with JobCreated _ => true | _ => false end.
Definition is_JobStarted (ev : Event) : bool :=
  match ev with JobStarted _ => true | _ => false end.
Definition is_Log (ev : Event) : bool :=
  match ev with Log _ _ => true | _ => false end.
Definition is_OpenUrl (ev : Event) : bool :=
  match ev with OpenUrl _ => true | _ => false end.
Definition count (p : Event -> bool) (evs : list Event) : nat :=
  length (List.filter p evs).

(** The job-queue part of an event log: jobs constructed and jobs started. *)
Definition job_events (evs : list Event) : list Event :=
  List.filter (fun ev => is_JobCreated ev || is_JobStarted ev) evs.

(** The (key, default) pairs an event log registers with the preferences. *)
Definition preference_registrations (evs : list Event) :
    list (string * PrefValue) :=
  omap (fun ev => match ev with
                  | AddPreference key default => Some (key, default)
                  | _ => None
                  end) evs.


(** The path of the bundled resource file. *)
Definition resource_path : string :=
  os_path_join (PluginRegistry_getPluginPath host "FirmwareUpdateChecker")
               "resources/machines.json".

(** The preference registrations made for a lookup table. *)
Definition registrations (lk : FirmwareUpdateCheckerLookup) : list Event :=
  (fun machine_id =>
     AddPreference (getSettingsKeyForMachine machine_id) (PrefStr ""))
  <$> getMachineIds lk.

(** The job [checkFirmwareVersion] builds for a container. *)
Definition job_for (container : option Container) (silent : bool)
    (lookups : option FirmwareUpdateCheckerLookup) : FirmwareUpdateCheckerJob :=
  {| job_container := container; job_silent := silent;
     job_lookups := lookups; job_callback := Slot_onActionTriggered |}.

(** How many more times the resource file may still be read. *)
Definition loads_left (self : FirmwareUpdateChecker) : nat :=
  match _lookups self with None => 1 | Some _ => 0 end.

(** ** Reading event logs and jobs *)

(** The definition name [container.definition.getName()] yields, when it
    yields one. *)
Definition definition_name (container : option Container) : option string :=
  c ← container; d ← definition c; Some (getName d).

Definition job_name (job : FirmwareUpdateCheckerJob) : option string :=
  definition_name (job_container job).

(** The jobs an event log constructs, in order. *)
Definition created_jobs (evs : list Event) : list FirmwareUpdateCheckerJob :=
  omap (fun ev => match ev with JobCreated job => Some job | _ => None end) evs.

(** The signal connections an event log makes, in order. *)
Definition connections (evs : list Event) : list (Signal * BoundMethod) :=
  omap (fun ev => match ev with
                  | Connect signal slot => Some (signal, slot)
                  | _ => None
                  end) evs.

(** Host calls that only talk to the user: browser and logger. *)
Definition is_ui (ev : Event) : bool := is_OpenUrl ev || is_Log ev.

Definition with_check_job (self : FirmwareUpdateChecker)
    (j : option FirmwareUpdateCheckerJob) : FirmwareUpdateChecker :=
  {| _download_url := _download_url self; _check_job := j;
     _checked_printer_names := _checked_printer_names self;
     _lookups := _lookups self |}.

(** ** The extension as a transition system

    Every call decomposes into these moves: talking to the user, forgetting
    the job reference, loading the table, and starting a job for a name not
    seen before. *)
Inductive steps :
    FirmwareUpdateChecker -> list Event -> FirmwareUpdateChecker -> Prop :=
  | steps_ui self evs :
      Forall (fun ev => is_ui ev = true) evs -> steps self evs self
  | steps_finish self :
      steps self [] (with_check_job self None)
  | steps_load self :
      _lookups self = None ->
      steps self
        (LookupLoaded resource_path
         :: registrations (machines_json host resource_path))
        {| _download_url := _download_url self; _check_job := _check_job self;
           _checked_printer_names := _checked_printer_names self;
           _lookups := Some (machines_json host resource_path) |}
  | steps_job self c d silent :
      _lookups self ≠ None ->
      definition c = Some d ->
      getName d ∉ _checked_printer_names self ->
      steps self
        [JobCreated (job_for (Some c) silent (_lookups self));
         JobStarted (job_for (Some c) silent (_lookups self));
         Connect (finished (job_for (Some c) silent (_lookups self)))
                 Slot_onJobFinished]
        {| _download_url := _download_url self;
           _check_job := Some (job_for (Some c) silent (_lookups self));
           _checked_printer_names :=
             {[getName d]} ∪ _checked_printer_names self;
           _lookups := _lookups self |}
  | steps_seq s1 evs1 s2 evs2 s3 :
      steps s1 evs1 s2 -> steps s2 evs2 s3 -> steps s1 (evs1 ++ evs2) s3.

(** The job reference, when set, is a job of this extension: built with the
    action callback and the current table, for a container whose definition
    name has been recorded. *)
Definition check_job_ok (self : FirmwareUpdateChecker) : Prop :=
  forall job, _check_job self = Some job ->
    job_callback job = Slot_onActionTriggered ∧
    job_lookups job = _lookups self ∧
    _lookups self ≠ None ∧
    exists name, job_name job = Some name ∧ name ∈ _checked_printer_names self.

(** The (key, default) pairs registered for a lookup table. *)
Definition machine_preferences (lk : FirmwareUpdateCheckerLookup) :
    list (string * PrefValue) :=
  (fun machine_id => (getSettingsKeyForMachine machine_id, PrefStr ""))
  <$> getMachineIds lk.

(** ** Unfolding the monad *)

Ltac unfold_monad :=
  cbv [mbind M_bind mret M_ret get emit modify raise
       set_check_job set_lookups set_download_url set_checked_printer_names
       checked_printer_names_add Preferences_addPreference Logger_log connect
       outcome_of self_of events_of].

Lemma outcome_of_mk {A} (o : Outcome A) s evs : outcome_of (o, s, evs) = o.
Proof. done. Qed.
Lemma self_of_mk {A} (o : Outcome A) s evs : self_of (o, s, evs) = s.
Proof. done. Qed.
Lemma events_of_mk {A} (o : Outcome A) s evs : events_of (o, s, evs) = evs.
Proof. done. Qed.

Lemma for_each_emit {A} (f : A -> Event) (xs : list A)
    (self : FirmwareUpdateChecker) :
  for_each xs (fun x => emit (f x)) self = (Returned tt, self, f <$> xs).
Proof.
  revert self. induction xs as [|x xs IH]; intros self; [done|].
  simpl. unfold mbind, M_bind. cbn [emit]. by rewrite IH.
Qed.

Lemma for_each_addPreference (ids : list string) (self : FirmwareUpdateChecker) :
  for_each ids (fun machine_id =>
    Preferences_addPreference (getSettingsKeyForMachine machine_id) (PrefStr "")) self
  = (Returned tt, self,
     (fun machine_id =>
        AddPreference (getSettingsKeyForMachine machine_id) (PrefStr "")) <$> ids).
Proof. unfold Preferences_addPreference. apply for_each_emit. Qed.

Lemma _onPluginsLoaded_loaded self :
  _lookups self ≠ None -> _onPluginsLoaded self = (Returned tt, self, []).
Proof.
  intros Hl. unfold _onPluginsLoaded. unfold_monad.
  by destruct (_lookups self).
Qed.

Lemma _onPluginsLoaded_fresh self :
  _lookups self = None ->
  _onPluginsLoaded self =
    (Returned tt,
     {| _download_url := _download_url self; _check_job := _check_job self;
        _checked_printer_names := _checked_printer_names self;
        _lookups := Some (machines_json host resource_path) |},
     LookupLoaded resource_path :: registrations (machines_json host resource_path)).
Proof.
  intros Hl. unfold _onPluginsLoaded. unfold_monad. rewrite Hl. simpl.
  by rewrite for_each_addPreference.
Qed.

Lemma _onPluginsLoaded_sets_lookups self :
  _lookups (self_of (_onPluginsLoaded self)) ≠ None.
Proof.
  destruct (_lookups self) as [lk|] eqn:Hl.
  - rewrite _onPluginsLoaded_loaded; [|by rewrite Hl]. unfold self_of; simpl.
    by rewrite Hl.
  - by rewrite _onPluginsLoaded_fresh.
Qed.

(** [checkFirmwareVersion] on a loaded extension. *)
Lemma checkFirmwareVersion_loaded container silent self :
  _lookups self ≠ None ->
  checkFirmwareVersion container silent self =
    match container with
    | None => (Raised (AttributeError "NoneType" "definition"), self, [])
    | Some c =>
      match definition c with
      | None =>
        (Raised (AttributeError (class_name (class_of c)) "definition"), self, [])
      | Some d =>
        if decide (getName d ∈ _checked_printer_names self)
        then (Returned tt, self, [])
        else
          let job := job_for container silent (_lookups self) in
          (Returned tt,
           {| _download_url := _download_url self; _check_job := Some job;
              _checked_printer_names := {[getName d]} ∪ _checked_printer_names self;
              _lookups := _lookups self |},
           [JobCreated job; JobStarted job;
            Connect (finished job) Slot_onJobFinished])
      end
    end.
Proof.
  intros Hl. unfold checkFirmwareVersion, container_definition_getName.
  unfold_monad.
  destruct (_lookups self) as [lk|] eqn:E; [|done]. simpl.
  destruct container as [c|]; [|done].
  destruct (definition c) as [d|]; [|done]. simpl.
  destruct (decide _); simpl; by rewrite ?E.
Qed.

(** [checkFirmwareVersion] first loads the table when that has not
    happened yet, then goes on as on a loaded extension. *)
Lemma checkFirmwareVersion_fresh container silent self :
  _lookups self = None ->
  checkFirmwareVersion container silent self =
    let r0 := _onPluginsLoaded self in
    let r1 := checkFirmwareVersion container silent (self_of r0) in
    (outcome_of r1, self_of r1, events_of r0 ++ events_of r1).
Proof.
  intros Hl. cbv zeta.
  rewrite (checkFirmwareVersion_loaded _ _ (self_of (_onPluginsLoaded self)))
    by apply _onPluginsLoaded_sets_lookups.
  rewrite _onPluginsLoaded_fresh by done.
  unfold resource_path, registrations.
  unfold checkFirmwareVersion, _onPluginsLoaded, container_definition_getName.
  cbv [mbind M_bind get]. rewrite Hl.
  cbv [emit set_lookups modify]. cbn [_lookups]. rewrite Hl. cbv beta.
  rewrite for_each_addPreference. unfold_monad. simpl.
  destruct container as [c|]; [|done].
  destruct (definition c) as [d|]; [|done]. simpl.
  destruct (decide _); [done|]. simpl.
  by rewrite <- ?app_assoc.
Qed.

Lemma _onActionTriggered_eq message action self :
  _onActionTriggered message action self =
    if decide (action = STR_ACTION_DOWNLOAD) then
      match _lookups self with
      | None => (Raised (AttributeError "NoneType" "getRedirectUserFor"), self, [])
      | Some lk =>
        match getRedirectUserFor lk (getMachineId message) with
        | Some url =>
          (Returned tt, self,
           [OpenUrl url;
            if QDesktopServices_openUrl host url
            then Log "i" ("Redirected browser to " +:+ url +:+
                          " to show newly available firmware.")
            else Log "e" ("Can't reach URL: " +:+ url)])
        | None =>
          (Returned tt, self,
           [Log "e" ("Can't find URL for " +:+ getMachineId message)])
        end
      end
    else (Returned tt, self, []).
Proof.
  unfold _onActionTriggered. unfold_monad.
  destruct (decide _); [|done].
  destruct (_lookups self) as [lk|]; [|done].
  destruct (getRedirectUserFor _ _) as [url|]; [|done].
  by destruct (QDesktopServices_openUrl host url).
Qed.

Lemma _onActionTriggered_self message action self :
  self_of (_onActionTriggered message action self) = self.
Proof.
  rewrite _onActionTriggered_eq. unfold self_of.
  repeat case_match; done.
Qed.

Lemma checkFirmwareVersion_sets_lookups container silent self :
  _lookups (self_of (checkFirmwareVersion container silent self)) ≠ None.
Proof.
  assert (Hloaded : forall s, _lookups s ≠ None ->
            _lookups (self_of (checkFirmwareVersion container silent s)) ≠ None).
  { intros s Hs. rewrite checkFirmwareVersion_loaded by done.
    unfold self_of. repeat case_match; done. }
  destruct (_lookups self) as [lk|] eqn:Hl.
  - apply Hloaded. by rewrite Hl.
  - rewrite checkFirmwareVersion_fresh by done. cbv zeta.
    apply Hloaded, _onPluginsLoaded_sets_lookups.
Qed.

Lemma perform_sets_or_keeps_lookups c self :
  _lookups (self_of (perform c self)) ≠ None ∨
  self_of (perform c self) =
    {| _download_url := _download_url self;
       _check_job := _check_job (self_of (perform c self));
       _checked_printer_names := _checked_printer_names self;
       _lookups := _lookups self |}.
Proof.
  destruct c as [message action|container| | |container silent]; simpl.
  - right. rewrite _onActionTriggered_self. by destruct self.
  - unfold _onContainerAdded. destruct (isinstance_GlobalStack container).
    + left. apply checkFirmwareVersion_sets_lookups.
    + right. by destruct self.
  - right. done.
  - left. apply _onPluginsLoaded_sets_lookups.
  - left. apply checkFirmwareVersion_sets_lookups.
Qed.

(** Whatever the allocated object held, construction leaves every attribute
    at its initial value. *)
Lemma __init___self s0 : self_of (__init__ s0) = blank.
Proof.
  unfold __init__. unfold_monad.
  by destruct (truthy _).
Qed.

Lemma __init___events s0 :
  events_of (__init__ s0) =
    AddPreference "info/automatic_update_check" (PrefBool true)
    :: (if truthy (Preferences_getValue host "info/automatic_update_check")
        then [Connect containerAdded Slot_onContainerAdded] else [])
    ++ [Connect pluginsLoaded Slot_onPluginsLoaded].
Proof.
  unfold __init__. unfold_monad.
  by destruct (truthy _).
Qed.

(** In every reachable state, a printer name has only been recorded after
    the lookup table was loaded. *)
Lemma reachable_checked_loaded self :
  reachable self -> _lookups self = None -> _checked_printer_names self = ∅.
Proof.
  induction 1 as [|self c Hr IH]; [by rewrite __init___self|].
  intros Hnone.
  destruct (perform_sets_or_keeps_lookups c self) as [Hset|Hkeep]; [done|].
  rewrite Hkeep in Hnone |- *. simpl in *. by apply IH.
Qed.

(** Counting over concatenations and over the registrations. *)
Lemma count_app p (evs1 evs2 : list Event) :
  count p (evs1 ++ evs2) = count p evs1 + count p evs2.
Proof. unfold count. by rewrite List.filter_app, length_app. Qed.

Lemma count_registrations p lk :
  (forall key default, p (AddPreference key default) = false) ->
  count p (registrations lk) = 0.
Proof.
  intros Hp. unfold count, registrations.
  induction (getMachineIds lk) as [|m ids IH]; [done|].
  simpl. by rewrite Hp.
Qed.

Lemma filter_registrations p lk :
  (forall key default, p (AddPreference key default) = false) ->
  List.filter p (registrations lk) = [].
Proof.
  intros Hp. apply nil_length_inv. by apply count_registrations.
Qed.

Lemma checked_printer_names_monotone c self :
  _checked_printer_names self ⊆ _checked_printer_names (self_of (perform c self)).
Proof.
  assert (Hloaded : forall container silent s, _lookups s ≠ None ->
            _checked_printer_names s ⊆
            _checked_printer_names (self_of (checkFirmwareVersion container silent s))).
  { intros container silent s Hs. rewrite checkFirmwareVersion_loaded by done.
    unfold self_of. repeat case_match; simpl; set_solver. }
  assert (Hcheck : forall container silent s,
            _checked_printer_names s ⊆
            _checked_printer_names (self_of (checkFirmwareVersion container silent s))).
  { intros container silent s. destruct (_lookups s) as [lk|] eqn:Hl.
    - apply Hloaded. by rewrite Hl.
    - rewrite checkFirmwareVersion_fresh by done. cbv zeta.
      etrans; [|apply Hloaded, _onPluginsLoaded_sets_lookups].
      by rewrite _onPluginsLoaded_fresh. }
  destruct c as [message action|container| | |container silent]; simpl.
  - by rewrite _onActionTriggered_self.
  - unfold _onContainerAdded. destruct (isinstance_GlobalStack container); [|done].
    apply Hcheck.
  - done.
  - destruct (_lookups self) as [lk|] eqn:Hl.
    + rewrite _onPluginsLoaded_loaded; [done|by rewrite Hl].
    + by rewrite _onPluginsLoaded_fresh.
  - apply Hcheck.
Qed.

Lemma perform_loads c self :
  count is_LookupLoaded (events_of (perform c self))
    + loads_left (self_of (perform c self)) ≤ loads_left self.
Proof.
  assert (Hplugins : forall s,
            count is_LookupLoaded (events_of (_onPluginsLoaded s))
              + loads_left (self_of (_onPluginsLoaded s)) ≤ loads_left s).
  { intros s. destruct (_lookups s) as [lk|] eqn:Hl.
    - rewrite _onPluginsLoaded_loaded; [done|by rewrite Hl].
    - rewrite _onPluginsLoaded_fresh by done.
      unfold events_of, self_of, loads_left. simpl. rewrite Hl.
      change (S (count is_LookupLoaded (registrations
                (machines_json host resource_path))) + 0 ≤ 1).
      rewrite count_registrations; [lia|done]. }
  assert (Hloaded : forall container silent s, _lookups s ≠ None ->
            count is_LookupLoaded (events_of (checkFirmwareVersion container silent s))
              + loads_left (self_of (checkFirmwareVersion container silent s))
            ≤ loads_left s).
  { intros container silent s Hs. rewrite checkFirmwareVersion_loaded by done.
    unfold events_of, self_of, loads_left.
    destruct (_lookups s) eqn:E; [|done].
    destruct container as [c'|]; [destruct (definition c'); [destruct (decide _)|]|];
      simpl; rewrite ?E; cbn; lia. }
  assert (Hcheck : forall container silent s,
            count is_LookupLoaded (events_of (checkFirmwareVersion container silent s))
              + loads_left (self_of (checkFirmwareVersion container silent s))
            ≤ loads_left s).
  { intros container silent s. destruct (_lookups s) as [lk|] eqn:Hl.
    - apply Hloaded. by rewrite Hl.
    - rewrite checkFirmwareVersion_fresh by done. cbv zeta.
      rewrite events_of_mk, self_of_mk, count_app.
      pose proof (Hplugins s).
      pose proof (Hloaded container silent (self_of (_onPluginsLoaded s))
                    (_onPluginsLoaded_sets_lookups s)).
      lia. }
  destruct c as [message action|container| | |container silent]; simpl.
  - rewrite _onActionTriggered_self. rewrite _onActionTriggered_eq.
    unfold events_of. repeat case_match; simpl; cbn; lia.
  - unfold _onContainerAdded. destruct (isinstance_GlobalStack container).
    + apply Hcheck.
    + cbn. lia.
  - unfold loads_left. cbn. lia.
  - apply Hplugins.
  - apply Hcheck.
Qed.

Lemma run_loads calls self :
  count is_LookupLoaded (run calls self).2 + loads_left (run calls self).1
    ≤ loads_left self.
Proof.
  revert self. induction calls as [|c calls IH]; intros self; simpl.
  - cbn. lia.
  - rewrite count_app.
    pose proof (perform_loads c self).
    pose proof (IH (self_of (perform c self))). lia.
Qed.

Lemma run_keeps_lookups calls self :
  _lookups self ≠ None -> _lookups (run calls self).1 = _lookups self.
Proof.
  revert self. induction calls as [|c calls IH]; intros self Hl; [done|].
  simpl.
  assert (Hstep : _lookups (self_of (perform c self)) = _lookups self).
  { assert (Hloaded : forall container silent,
              _lookups (self_of (checkFirmwareVersion container silent self))
              = _lookups self).
    { intros container silent. rewrite checkFirmwareVersion_loaded by done.
      unfold self_of. repeat case_match; done. }
    destruct c as [message action|container| | |container silent]; simpl.
    - by rewrite _onActionTriggered_self.
    - unfold _onContainerAdded. by destruct (isinstance_GlobalStack container).
    - done.
    - by rewrite _onPluginsLoaded_loaded.
    - apply Hloaded. }
  rewrite IH; [done|]. by rewrite Hstep.
Qed.

(** ** Duplicate checks *)

(** C1: for a container whose definition name is already in the checked-set,
    [checkFirmwareVersion] returns normally, makes no host call at all (so no
    job is created or started) and leaves every attribute as it was: the
    checked-set, the lookup table, the download URL and the job reference.
    This holds in every state the extension can reach. *)
Theorem C1_checked_name_is_skipped (c : Container) (d : MachineDefinition)
    (silent : bool) (self : FirmwareUpdateChecker) :
  reachable self ->
  definition c = Some d ->
  getName d ∈ _checked_printer_names self ->
  checkFirmwareVersion (Some c) silent self = (Returned tt, self, []).
Proof.
  intros Hr Hd Hin.
  assert (Hl : _lookups self ≠ None).
  { intros Hnone. apply reachable_checked_loaded in Hnone; [|done].
    rewrite Hnone in Hin. set_solver. }
  rewrite checkFirmwareVersion_loaded by done.
  rewrite Hd. by rewrite decide_True.
Qed.

(** What a check of a name not seen before does: after the table has been
    loaded if it was not, the name is recorded and a job is created, stored
    and started. *)
Lemma checkFirmwareVersion_unchecked (c : Container) (d : MachineDefinition)
    (silent : bool) (self : FirmwareUpdateChecker) :
  definition c = Some d ->
  getName d ∉ _checked_printer_names self ->
  exists prefix lookups,
    lookups ≠ None ∧
    (prefix = [] ∨
     prefix = LookupLoaded resource_path
              :: registrations (machines_json host resource_path)) ∧
    checkFirmwareVersion (Some c) silent self =
      let job := job_for (Some c) silent lookups in
      (Returned tt,
       {| _download_url := _download_url self; _check_job := Some job;
          _checked_printer_names := {[getName d]} ∪ _checked_printer_names self;
          _lookups := lookups |},
       prefix ++ [JobCreated job; JobStarted job;
                  Connect (finished job) Slot_onJobFinished]).
Proof.
  intros Hd Hnotin.
  destruct (_lookups self) as [lk|] eqn:Hl.
  - exists [], (Some lk). split; [done|]. split; [by left|].
    rewrite checkFirmwareVersion_loaded by by rewrite Hl.
    rewrite Hd, decide_False by done. by rewrite Hl.
  - exists (LookupLoaded resource_path
            :: registrations (machines_json host resource_path)),
           (Some (machines_json host resource_path)).
    split; [done|]. split; [by right|].
    rewrite checkFirmwareVersion_fresh by done. cbv zeta.
    rewrite checkFirmwareVersion_loaded by apply _onPluginsLoaded_sets_lookups.
    rewrite _onPluginsLoaded_fresh by done.
    rewrite self_of_mk, events_of_mk, Hd. simpl.
    by rewrite decide_False by done.
Qed.

(** C2: for a container whose definition name is not yet in the checked-set,
    [checkFirmwareVersion] returns normally, adds the name to the
    checked-set, constructs one job for the container and starts that same
    job once (the job part of the event log is exactly: created, started),
    and stores it as the current job reference. *)
Theorem C2_unchecked_name_starts_one_job (c : Container) (d : MachineDefinition)
    (silent : bool) (self : FirmwareUpdateChecker) :
  definition c = Some d ->
  getName d ∉ _checked_printer_names self ->
  let r := checkFirmwareVersion (Some c) silent self in
  outcome_of r = Returned tt ∧
  _checked_printer_names (self_of r) =
    {[getName d]} ∪ _checked_printer_names self ∧
  exists job,
    job_container job = Some c ∧ job_silent job = silent ∧
    _check_job (self_of r) = Some job ∧
    job_events (events_of r) = [JobCreated job; JobStarted job] ∧
    count is_JobCreated (events_of r) = 1 ∧
    count is_JobStarted (events_of r) = 1.
Proof.
  intros Hd Hnotin.
  destruct (checkFirmwareVersion_unchecked c d silent self Hd Hnotin)
    as (prefix & lookups & _ & Hprefix & Heq).
  cbv zeta in *. rewrite Heq, outcome_of_mk, self_of_mk, events_of_mk.
  split; [done|]. split; [done|].
  exists (job_for (Some c) silent lookups).
  do 3 (split; [done|]).
  unfold job_events. rewrite List.filter_app, !count_app.
  destruct Hprefix as [->| ->]; [done|].
  change (LookupLoaded resource_path :: ?l)
    with ([LookupLoaded resource_path] ++ l).
  rewrite List.filter_app, !count_app.
  by rewrite filter_registrations, !count_registrations.
Qed.

(** ** Loading the lookup table *)

(** C3: once [_onPluginsLoaded] has run, the lookup table is set, and any
    later invocation, after any calls in between, returns at once with no
    host call (the resource file is not read again and no preference is
    registered again) and with the table unchanged.  Over a whole process
    lifetime the resource file is read at most once. *)
Theorem C3_lookup_table_loaded_once (self : FirmwareUpdateChecker)
    (calls : list Call) :
  let self1 := self_of (_onPluginsLoaded self) in
  let self2 := (run calls self1).1 in
  _lookups self1 ≠ None ∧
  _lookups self2 = _lookups self1 ∧
  _onPluginsLoaded self2 = (Returned tt, self2, []) ∧
  count is_LookupLoaded (lifetime calls).2 ≤ 1.
Proof.
  cbv zeta.
  pose proof (_onPluginsLoaded_sets_lookups self) as Hset.
  pose proof (run_keeps_lookups calls _ Hset) as Hkeep.
  split; [done|]. split; [done|]. split.
  - apply _onPluginsLoaded_loaded. by rewrite Hkeep.
  - unfold lifetime. simpl. rewrite count_app, __init___events, __init___self.
    pose proof (run_loads calls blank) as Hrun.
    assert (Hinit : forall evs,
              count is_LookupLoaded
                (AddPreference "info/automatic_update_check" (PrefBool true)
                 :: evs ++ [Connect pluginsLoaded Slot_onPluginsLoaded])
              = count is_LookupLoaded evs).
    { intros evs. change (?x :: ?l) with ([x] ++ l).
      rewrite !count_app. cbn. lia. }
    rewrite Hinit.
    assert (Hconn : count is_LookupLoaded
              (if truthy (Preferences_getValue host "info/automatic_update_check")
               then [Connect containerAdded Slot_onContainerAdded] else []) = 0)
      by by destruct (truthy _).
    rewrite Hconn. unfold loads_left in Hrun at 2. simpl in Hrun. lia.
Qed.

(** C6: when the lookup table is first loaded, the table becomes the one
    built from the bundled resource file, and the preferences registered by
    that call are, in order, one per machine id of the table: the key derived
    from the machine id, with the empty string as default.  The machine ids
    are pairwise distinct and are exactly the ids the table has an entry
    for, so there is one registration per machine id. *)
Theorem C6_one_preference_per_machine (self : FirmwareUpdateChecker) :
  _lookups self = None ->
  let r := _onPluginsLoaded self in
  let lk := machines_json host resource_path in
  outcome_of r = Returned tt ∧
  _lookups (self_of r) = Some lk ∧
  preference_registrations (events_of r) =
    (fun machine_id => (getSettingsKeyForMachine machine_id, PrefStr ""))
    <$> getMachineIds lk ∧
  NoDup (getMachineIds lk) ∧
  (forall machine_id, machine_id ∈ getMachineIds lk <-> is_Some (lk !! machine_id)) ∧
  length (preference_registrations (events_of r)) = size lk.
Proof.
  intros Hl. cbv zeta. rewrite _onPluginsLoaded_fresh by done.
  rewrite outcome_of_mk, self_of_mk, events_of_mk.
  assert (Hreg : preference_registrations
            (LookupLoaded resource_path
             :: registrations (machines_json host resource_path)) =
          (fun machine_id => (getSettingsKeyForMachine machine_id, PrefStr ""))
          <$> getMachineIds (machines_json host resource_path)).
  { unfold preference_registrations, registrations.
    change (omap ?f (LookupLoaded ?x :: ?l)) with (omap f l).
    induction (getMachineIds _) as [|m ids IH]; [done|].
    rewrite !fmap_cons. cbn [omap list_omap]. by f_equal. }
  split; [done|]. split; [done|]. split; [done|]. split; [|split].
  - unfold getMachineIds. apply NoDup_elements.
  - intros m. unfold getMachineIds. by rewrite elem_of_elements, elem_of_dom.
  - rewrite Hreg, length_fmap. unfold getMachineIds.
    change (size (dom (machines_json host resource_path))
            = size (machines_json host resource_path)).
    apply size_dom.
Qed.

(** ** The notification-action callback *)

(** C4: in the download action of the callback, when the lookup table has
    no redirect URL for the message's machine id, the only host call is one
    error log; when it has one but the desktop fails to open it, the host
    calls are that attempt followed by one error log.  In both cases the
    callback returns normally and the attributes are unchanged. *)
Theorem C4_failed_download_is_logged (message : FirmwareUpdateCheckerMessage)
    (self : FirmwareUpdateChecker) (lk : FirmwareUpdateCheckerLookup) :
  _lookups self = Some lk ->
  (getRedirectUserFor lk (getMachineId message) = None ∨
   exists url, getRedirectUserFor lk (getMachineId message) = Some url ∧
               QDesktopServices_openUrl host url = false) ->
  let r := _onActionTriggered message STR_ACTION_DOWNLOAD self in
  outcome_of r = Returned tt ∧
  self_of r = self ∧
  events_of r =
    match getRedirectUserFor lk (getMachineId message) with
    | None => [Log "e" ("Can't find URL for " +:+ getMachineId message)]
    | Some url => [OpenUrl url; Log "e" ("Can't reach URL: " +:+ url)]
    end ∧
  count is_Log (events_of r) = 1.
Proof.
  intros Hl Hfail. cbv zeta. rewrite _onActionTriggered_eq.
  rewrite decide_True by done. rewrite Hl.
  destruct Hfail as [Hnone|(url & Hurl & Hopen)].
  - by rewrite Hnone.
  - by rewrite Hurl, Hopen.
Qed.

(** C5: in the download action of the callback, when the lookup table has a
    redirect URL for the message's machine id, the callback asks the desktop
    to open exactly that URL, once, then logs the result and returns. *)
Theorem C5_download_opens_redirect_url (message : FirmwareUpdateCheckerMessage)
    (self : FirmwareUpdateChecker) (lk : FirmwareUpdateCheckerLookup)
    (url : string) :
  _lookups self = Some lk ->
  getRedirectUserFor lk (getMachineId message) = Some url ->
  let r := _onActionTriggered message STR_ACTION_DOWNLOAD self in
  outcome_of r = Returned tt ∧
  self_of r = self ∧
  List.filter is_OpenUrl (events_of r) = [OpenUrl url] ∧
  events_of r =
    [OpenUrl url;
     if QDesktopServices_openUrl host url
     then Log "i" ("Redirected browser to " +:+ url +:+
                   " to show newly available firmware.")
     else Log "e" ("Can't reach URL: " +:+ url)].
Proof.
  intros Hl Hurl. cbv zeta. rewrite _onActionTriggered_eq.
  rewrite decide_True by done. rewrite Hl, Hurl.
  rewrite outcome_of_mk, self_of_mk, events_of_mk.
  by destruct (QDesktopServices_openUrl host url).
Qed.

(** ** The checked-set *)

(** C7: the checked-set is empty after construction, whatever the allocated
    object held; every call leaves it a superset of what it was, and so does
    every sequence of calls; the callbacks other than the check itself leave
    it exactly as it was. *)
Theorem C7_checked_set_grows (s0 : FirmwareUpdateChecker) :
  _checked_printer_names (self_of (__init__ s0)) = ∅ ∧
  (forall c self,
     _checked_printer_names self ⊆
     _checked_printer_names (self_of (perform c self))) ∧
  (forall calls self,
     _checked_printer_names self ⊆ _checked_printer_names (run calls self).1) ∧
  (forall message action self,
     _checked_printer_names (self_of (_onActionTriggered message action self))
     = _checked_printer_names self) ∧
  (forall self,
     _checked_printer_names (self_of (_onJobFinished self))
     = _checked_printer_names self) ∧
  (forall self,
     _checked_printer_names (self_of (_onPluginsLoaded self))
     = _checked_printer_names self).
Proof.
  split; [by rewrite __init___self|].
  split; [apply checked_printer_names_monotone|].
  split; [|split; [|split]].
  - induction calls as [|c calls IH]; intros self; [done|].
    simpl. etrans; [apply (checked_printer_names_monotone c)|apply IH].
  - intros. by rewrite _onActionTriggered_self.
  - done.
  - intros self. destruct (_lookups self) as [lk|] eqn:Hl.
    + rewrite _onPluginsLoaded_loaded; [done|by rewrite Hl].
    + by rewrite _onPluginsLoaded_fresh.
Qed.

(** ** The container argument *)

(** C8: called with [container = None], [checkFirmwareVersion] raises an
    AttributeError at the read of the container's definition; nothing is
    logged, no job is created or started, and the checked-set and the job
    reference are as before. *)
Theorem C8_none_container_raises (silent : bool) (self : FirmwareUpdateChecker) :
  let r := checkFirmwareVersion None silent self in
  outcome_of r = Raised (AttributeError "NoneType" "definition") ∧
  count is_Log (events_of r) = 0 ∧
  job_events (events_of r) = [] ∧
  _checked_printer_names (self_of r) = _checked_printer_names self ∧
  _check_job (self_of r) = _check_job self.
Proof.
  cbv zeta. destruct (_lookups self) as [lk|] eqn:Hl.
  - rewrite checkFirmwareVersion_loaded; [done|by rewrite Hl].
  - rewrite checkFirmwareVersion_fresh by done. cbv zeta.
    rewrite checkFirmwareVersion_loaded by apply _onPluginsLoaded_sets_lookups.
    rewrite _onPluginsLoaded_fresh by done.
    rewrite !outcome_of_mk, !self_of_mk, !events_of_mk, app_nil_r.
    split; [done|]. split; [|split; [|done]].
    + change (LookupLoaded resource_path :: ?l)
        with ([LookupLoaded resource_path] ++ l).
      by rewrite count_app, count_registrations.
    + unfold job_events. simpl. by rewrite filter_registrations.
Qed.

(** ** Automatic checks *)

(** The slots construction connects to the container-added signal. *)
Lemma __init___slots s0 :
  containerAdded_slots (events_of (__init__ s0)) =
    if truthy (Preferences_getValue host "info/automatic_update_check")
    then [Slot_onContainerAdded] else [].
Proof. rewrite __init___events. by destruct (truthy _). Qed.

(** An emission to the connected slot is one call of [_onContainerAdded]. *)
Lemma containerAdded_emit_connected container self :
  containerAdded_emit [Slot_onContainerAdded] container self =
    if isinstance_GlobalStack container
    then checkFirmwareVersion container true self
    else (Returned tt, self, []).
Proof.
  unfold containerAdded_emit, for_each, _onContainerAdded, mbind, M_bind.
  destruct (isinstance_GlobalStack container); [|done].
  destruct (checkFirmwareVersion container true self) as [[[[]|e] s1] evs1];
    simpl; by rewrite ?app_nil_r.
Qed.

(** No call of the extension connects anything to the container-added
    signal. *)
Lemma perform_connects_nothing c self :
  containerAdded_slots (events_of (perform c self)) = [].
Proof.
  assert (Hreg : forall lk, containerAdded_slots (registrations lk) = []).
  { intros lk. unfold containerAdded_slots, registrations.
    induction (getMachineIds lk) as [|m ids IH]; [done|].
    rewrite fmap_cons. by cbn [omap list_omap]. }
  assert (Hplugins : forall s,
            containerAdded_slots (events_of (_onPluginsLoaded s)) = []).
  { intros s. destruct (_lookups s) as [lk|] eqn:Hl.
    - rewrite _onPluginsLoaded_loaded; [done|by rewrite Hl].
    - rewrite _onPluginsLoaded_fresh by done. rewrite events_of_mk.
      apply Hreg. }
  assert (Hloaded : forall c silent s, _lookups s ≠ None ->
            containerAdded_slots (events_of (checkFirmwareVersion c silent s)) = []).
  { intros c0 silent s Hs. rewrite checkFirmwareVersion_loaded by done.
    repeat case_match; done. }
  assert (Hcheck : forall c silent s,
            containerAdded_slots (events_of (checkFirmwareVersion c silent s)) = []).
  { intros c0 silent s. destruct (_lookups s) as [lk|] eqn:Hl.
    - apply Hloaded. by rewrite Hl.
    - rewrite checkFirmwareVersion_fresh by done. cbv zeta.
      rewrite events_of_mk. unfold containerAdded_slots. rewrite omap_app.
      fold (containerAdded_slots (events_of (_onPluginsLoaded s))).
      rewrite Hplugins. simpl.
      apply Hloaded, _onPluginsLoaded_sets_lookups. }
  destruct c as [message action|c| | |c silent]; simpl.
  - rewrite _onActionTriggered_eq. repeat case_match; done.
  - unfold _onContainerAdded. destruct (isinstance_GlobalStack c); [|done].
    apply Hcheck.
  - done.
  - apply Hplugins.
  - apply Hcheck.
Qed.

Lemma run_connects_nothing calls self :
  containerAdded_slots (run calls self).2 = [].
Proof.
  revert self. induction calls as [|c calls IH]; intros self; [done|].
  simpl. unfold containerAdded_slots. rewrite omap_app.
  fold (containerAdded_slots (events_of (perform c self))).
  fold (containerAdded_slots (run calls (self_of (perform c self))).2).
  by rewrite perform_connects_nothing, IH.
Qed.

(** C10: the duplicate guard looks at the definition name only.  For two
    different containers whose definitions carry the same name, a name not
    checked before, the first call creates and starts one job (for the first
    container) and the second call returns with no host call and no
    attribute changed. *)
Theorem C10_guard_keyed_by_definition_name (c1 c2 : Container)
    (d1 d2 : MachineDefinition) (silent1 silent2 : bool)
    (self : FirmwareUpdateChecker) :
  c1 ≠ c2 ->
  definition c1 = Some d1 ->
  definition c2 = Some d2 ->
  getName d1 = getName d2 ->
  getName d1 ∉ _checked_printer_names self ->
  let r1 := checkFirmwareVersion (Some c1) silent1 self in
  let r2 := checkFirmwareVersion (Some c2) silent2 (self_of r1) in
  (exists job,
     job_container job = Some c1 ∧
     job_events (events_of r1) = [JobCreated job; JobStarted job]) ∧
  r2 = (Returned tt, self_of r1, []).
Proof.
  intros Hne Hd1 Hd2 Hname Hnotin. cbv zeta.
  destruct (checkFirmwareVersion_unchecked c1 d1 silent1 self Hd1 Hnotin)
    as (prefix & lookups & Hloaded & Hprefix & Heq).
  cbv zeta in Heq. rewrite Heq, self_of_mk, events_of_mk. split.
  - exists (job_for (Some c1) silent1 lookups). split; [done|].
    unfold job_events. rewrite List.filter_app.
    destruct Hprefix as [->| ->]; [done|].
    simpl. by rewrite filter_registrations.
  - rewrite checkFirmwareVersion_loaded by done.
    rewrite Hd2. simpl. rewrite decide_True; [done|].
    rewrite <- Hname. apply elem_of_union_l. by apply elem_of_singleton.
Qed.

(** ** Calls as transitions *)

Lemma steps_refl self : steps self [] self.
Proof. by apply steps_ui. Qed.

Lemma checkFirmwareVersion_loaded_steps container silent self :
  _lookups self ≠ None ->
  steps self (events_of (checkFirmwareVersion container silent self))
        (self_of (checkFirmwareVersion container silent self)).
Proof.
  intros Hl. rewrite checkFirmwareVersion_loaded by done.
  destruct container as [c|]; [|apply steps_refl].
  destruct (definition c) as [d|] eqn:Hd; [|apply steps_refl].
  destruct (decide _); [apply steps_refl|].
  by apply (steps_job self c d silent).
Qed.

Lemma _onPluginsLoaded_steps self :
  steps self (events_of (_onPluginsLoaded self)) (self_of (_onPluginsLoaded self)).
Proof.
  destruct (_lookups self) as [lk|] eqn:Hl.
  - rewrite _onPluginsLoaded_loaded by by rewrite Hl. apply steps_refl.
  - rewrite _onPluginsLoaded_fresh by done. by apply steps_load.
Qed.

Lemma checkFirmwareVersion_steps container silent self :
  steps self (events_of (checkFirmwareVersion container silent self))
        (self_of (checkFirmwareVersion container silent self)).
Proof.
  destruct (_lookups self) as [lk|] eqn:Hl.
  - apply checkFirmwareVersion_loaded_steps. by rewrite Hl.
  - rewrite checkFirmwareVersion_fresh by done. cbv zeta.
    rewrite self_of_mk, events_of_mk.
    eapply steps_seq; [apply _onPluginsLoaded_steps|].
    apply checkFirmwareVersion_loaded_steps, _onPluginsLoaded_sets_lookups.
Qed.

Lemma perform_steps c self :
  steps self (events_of (perform c self)) (self_of (perform c self)).
Proof.
  destruct c as [message action|container| | |container silent]; simpl.
  - rewrite _onActionTriggered_eq.
    destruct (decide _); [|apply steps_refl].
    destruct (_lookups self) as [lk|]; [|apply steps_refl].
    destruct (getRedirectUserFor _ _) as [url|].
    + apply steps_ui. rewrite events_of_mk.
      destruct (QDesktopServices_openUrl host url); by repeat constructor.
    + apply steps_ui. by repeat constructor.
  - unfold _onContainerAdded.
    destruct (isinstance_GlobalStack container); [|apply steps_refl].
    apply checkFirmwareVersion_steps.
  - apply steps_finish.
  - apply _onPluginsLoaded_steps.
  - apply checkFirmwareVersion_steps.
Qed.

Lemma run_steps calls self :
  steps self (run calls self).2 (run calls self).1.
Proof.
  revert self. induction calls as [|c calls IH]; intros self; simpl.
  - apply steps_refl.
  - eapply steps_seq; [apply perform_steps|apply IH].
Qed.

Lemma reachable_steps self :
  reachable self -> exists evs, steps blank evs self.
Proof.
  induction 1 as [|self c _ [evs IH]].
  - rewrite __init___self. exists []. apply steps_refl.
  - eexists. eapply steps_seq; [exact IH|apply perform_steps].
Qed.

(** ** What the transitions keep *)

Set Warnings "-clear-no-such-hyp".

Lemma created_jobs_app evs1 evs2 :
  created_jobs (evs1 ++ evs2) = created_jobs evs1 ++ created_jobs evs2.
Proof. apply omap_app. Qed.

Lemma connections_app evs1 evs2 :
  connections (evs1 ++ evs2) = connections evs1 ++ connections evs2.
Proof. apply omap_app. Qed.

Lemma preference_registrations_app evs1 evs2 :
  preference_registrations (evs1 ++ evs2) =
  preference_registrations evs1 ++ preference_registrations evs2.
Proof. apply omap_app. Qed.

Lemma job_events_app evs1 evs2 :
  job_events (evs1 ++ evs2) = job_events evs1 ++ job_events evs2.
Proof. apply List.filter_app. Qed.

Lemma ui_projections evs :
  Forall (fun ev => is_ui ev = true) evs ->
  created_jobs evs = [] ∧ job_events evs = [] ∧ connections evs = [] ∧
  preference_registrations evs = [] ∧ count is_LookupLoaded evs = 0.
Proof.
  induction 1 as [|ev evs Hev _ (Hj & He & Hc & Hp & Hl)]; [done|].
  unfold created_jobs, job_events, connections, preference_registrations, count
    in *.
  destruct ev; try discriminate Hev; cbn; by rewrite ?Hj, ?He, ?Hc, ?Hp, ?Hl.
Qed.

Lemma registrations_projections lk :
  created_jobs (registrations lk) = [] ∧ job_events (registrations lk) = [] ∧
  connections (registrations lk) = [] ∧
  preference_registrations (registrations lk) = machine_preferences lk ∧
  count is_LookupLoaded (registrations lk) = 0.
Proof.
  unfold created_jobs, job_events, connections, preference_registrations,
    count, registrations, machine_preferences.
  induction (getMachineIds lk) as [|m ids (Hj & He & Hc & Hp & Hl)]; [done|].
  rewrite !fmap_cons. cbn. by rewrite Hj, He, Hc, Hp, Hl.
Qed.

Lemma steps_download_url s1 evs s3 :
  steps s1 evs s3 -> _download_url s3 = _download_url s1.
Proof. induction 1; simpl; congruence. Qed.

Lemma steps_lookups s1 evs s3 :
  steps s1 evs s3 ->
  (_lookups s3 = _lookups s1 ∧ count is_LookupLoaded evs = 0 ∧
   preference_registrations evs = []) ∨
  (_lookups s1 = None ∧
   _lookups s3 = Some (machines_json host resource_path) ∧
   count is_LookupLoaded evs = 1 ∧
   preference_registrations evs =
     machine_preferences (machines_json host resource_path)).
Proof.
  induction 1 as [self evs Hui|self|self Hl|self c d silent Hl Hd Hn
                 |s1 evs1 s2 evs2 s3 _ IH1 _ IH2].
  - left. by destruct (ui_projections evs Hui) as (_ & _ & _ & ? & ?).
  - by left.
  - right.
    destruct (registrations_projections (machines_json host resource_path))
      as (_ & _ & _ & Hp & Hc).
    split; [done|]. split; [done|]. split.
    + change (LookupLoaded resource_path :: ?l)
        with ([LookupLoaded resource_path] ++ l).
      by rewrite count_app, Hc.
    + done.
  - by left.
  - rewrite count_app, preference_registrations_app.
    destruct IH1 as [(E1 & C1 & P1)|(N1 & E1 & C1 & P1)];
      destruct IH2 as [(E2 & C2 & P2)|(N2 & E2 & C2 & P2)].
    + left. rewrite C1, C2, P1, P2. split; [congruence|done].
    + right. rewrite C1, C2, P1, P2. split; [congruence|done].
    + right. rewrite C1, C2, P1, P2, app_nil_r. split; [done|].
      split; [congruence|done].
    + congruence.
Qed.

Lemma steps_jobs s1 evs s3 :
  steps s1 evs s3 ->
  exists names,
    job_name <$> created_jobs evs = Some <$> names ∧
    NoDup names ∧
    (forall name, name ∈ names -> name ∉ _checked_printer_names s1) ∧
    _checked_printer_names s3 = list_to_set names ∪ _checked_printer_names s1.
Proof.
  induction 1 as [self evs Hui|self|self Hl|self c d silent Hl Hd Hn
                 |s1 evs1 s2 evs2 s3 _ IH1 _ IH2].
  - exists []. destruct (ui_projections evs Hui) as (-> & _).
    repeat split; [constructor|set_solver|set_solver].
  - exists []. repeat split; [constructor|set_solver|simpl; set_solver].
  - exists [].
    destruct (registrations_projections (machines_json host resource_path))
      as (Hj & _).
    unfold created_jobs in *. cbn. rewrite Hj.
    repeat split; [constructor|set_solver|set_solver].
  - exists [getName d]. cbn. unfold job_name, definition_name. cbn.
    rewrite Hd. cbn.
    repeat split; [apply NoDup_singleton|set_solver|set_solver].
  - destruct IH1 as (names1 & J1 & D1 & F1 & C1).
    destruct IH2 as (names2 & J2 & D2 & F2 & C2).
    exists (names1 ++ names2).
    rewrite created_jobs_app, !fmap_app, J1, J2.
    split; [done|]. split; [|split].
    + apply NoDup_app. split; [done|]. split; [|done].
      intros name H1 H2. apply (F2 name H2). rewrite C1. set_solver.
    + intros name Hin. apply elem_of_app in Hin as [Hin|Hin]; [by apply F1|].
      intros Hc. apply (F2 name Hin). rewrite C1. set_solver.
    + rewrite C2, C1, list_to_set_app_L. set_solver.
Qed.

Lemma steps_job_log s1 evs s3 :
  steps s1 evs s3 ->
  job_events evs =
    created_jobs evs ≫= (fun job => [JobCreated job; JobStarted job]) ∧
  connections evs =
    (fun job => (finished job, Slot_onJobFinished)) <$> created_jobs evs.
Proof.
  induction 1 as [self evs Hui|self|self Hl|self c d silent Hl Hd Hn
                 |s1 evs1 s2 evs2 s3 _ [J1 C1] _ [J2 C2]].
  - by destruct (ui_projections evs Hui) as (-> & -> & -> & _).
  - done.
  - destruct (registrations_projections (machines_json host resource_path))
      as (Hj & He & Hc & _).
    unfold job_events, created_jobs, connections in *. cbn.
    by rewrite Hj, He, Hc.
  - done.
  - rewrite job_events_app, connections_app, created_jobs_app.
    by rewrite bind_app, fmap_app, J1, J2, C1, C2.
Qed.

Lemma steps_check_job_ok s1 evs s3 :
  steps s1 evs s3 -> check_job_ok s1 -> check_job_ok s3.
Proof.
  induction 1 as [self evs Hui|self|self Hl|self c d silent Hl Hd Hn
                 |s1 evs1 s2 evs2 s3 _ IH1 _ IH2]; intros Hok.
  - done.
  - intros job Hjob. done.
  - intros job Hjob. simpl in Hjob.
    destruct (Hok job Hjob) as (_ & _ & Hloaded & _). done.
  - intros job Hjob. simpl in Hjob. injection Hjob as <-. simpl.
    split; [done|]. split; [done|]. split; [done|].
    exists (getName d). unfold job_name, definition_name. cbn. rewrite Hd.
    split; [done|set_solver].
  - auto.
Qed.

Lemma count_created_jobs evs :
  count is_JobCreated evs = length (created_jobs evs).
Proof.
  unfold count, created_jobs.
  induction evs as [|ev evs IH]; [done|]. destruct ev; cbn; by rewrite ?IH.
Qed.

Lemma run_checked_monotone calls self :
  _checked_printer_names self ⊆ _checked_printer_names (run calls self).1.
Proof.
  revert self. induction calls as [|c calls IH]; intros self; [done|].
  simpl. etrans; [apply (checked_printer_names_monotone c)|apply IH].
Qed.

Lemma checkFirmwareVersion_records_name c d silent self :
  definition c = Some d ->
  getName d ∈ _checked_printer_names
                (self_of (checkFirmwareVersion (Some c) silent self)).
Proof.
  intros Hd. destruct (decide (getName d ∈ _checked_printer_names self)) as [Hin|Hn].
  - by apply (checked_printer_names_monotone
                (Call_checkFirmwareVersion (Some c) silent) self).
  - destruct (checkFirmwareVersion_unchecked c d silent self Hd Hn)
      as (prefix & lookups & _ & _ & Heq).
    cbv zeta in Heq. rewrite Heq, self_of_mk. simpl.
    apply elem_of_union_l. by apply elem_of_singleton.
Qed.

Lemma check_job_ok_blank : check_job_ok blank.
Proof. intros job Hjob. discriminate Hjob. Qed.

(** ** Further properties of the methods *)

(** X1: a check loads the table on demand and is otherwise the check of a
    loaded extension: in any state, [checkFirmwareVersion] has the outcome
    and final attributes of running [_onPluginsLoaded] first and the check
    after it, and its host calls are those of the two in that order. *)
Theorem X1_check_is_load_then_check (container : option Container)
    (silent : bool) (self : FirmwareUpdateChecker) :
  let r0 := _onPluginsLoaded self in
  let r1 := checkFirmwareVersion container silent (self_of r0) in
  checkFirmwareVersion container silent self =
    (outcome_of r1, self_of r1, events_of r0 ++ events_of r1).
Proof.
  cbv zeta. destruct (_lookups self) as [lk|] eqn:Hl.
  - rewrite _onPluginsLoaded_loaded by by rewrite Hl.
    rewrite self_of_mk, events_of_mk. simpl.
    by destruct (checkFirmwareVersion container silent self) as [[o s1] evs].
  - by rewrite checkFirmwareVersion_fresh.
Qed.


(** X3: a check that raises on an extension whose table is not yet loaded
    has still loaded it: the attributes and the host calls are exactly those
    of [_onPluginsLoaded], so the table is set and the machine preferences
    are registered, while no name is recorded and no job reference is set. *)
Theorem X3_failed_check_still_loads (container : option Container)
    (silent : bool) (self : FirmwareUpdateChecker) :
  _lookups self = None ->
  definition_name container = None ->
  let r := checkFirmwareVersion container silent self in
  self_of r = self_of (_onPluginsLoaded self) ∧
  events_of r = events_of (_onPluginsLoaded self) ∧
  _lookups (self_of r) = Some (machines_json host resource_path) ∧
  preference_registrations (events_of r) =
    machine_preferences (machines_json host resource_path) ∧
  _checked_printer_names (self_of r) = _checked_printer_names self ∧
  _check_job (self_of r) = _check_job self.
Proof.
  intros Hl Hname. cbv zeta.
  rewrite checkFirmwareVersion_fresh by done. cbv zeta.
  rewrite checkFirmwareVersion_loaded by apply _onPluginsLoaded_sets_lookups.
  rewrite _onPluginsLoaded_fresh by done.
  destruct (registrations_projections (machines_json host resource_path))
    as (_ & _ & _ & Hp & _).
  destruct container as [c|]; [destruct (definition c) eqn:Hd|].
  - unfold definition_name in Hname. simpl in Hname. rewrite Hd in Hname.
    discriminate Hname.
  - by rewrite !self_of_mk, !events_of_mk, app_nil_r.
  - by rewrite !self_of_mk, !events_of_mk, app_nil_r.
Qed.

(** X4: the action callback only talks to the user: for every message,
    action and state it leaves all attributes as they were, makes at most
    two host calls, each one a browser or logger call, and never creates a
    job, connects a signal, registers a preference or loads the table. *)
Theorem X4_callback_only_talks_to_user (message : FirmwareUpdateCheckerMessage)
    (action : string) (self : FirmwareUpdateChecker) :
  let r := _onActionTriggered message action self in
  self_of r = self ∧
  Forall (fun ev => is_ui ev = true) (events_of r) ∧
  length (events_of r) ≤ 2 ∧
  created_jobs (events_of r) = [] ∧
  connections (events_of r) = [] ∧
  preference_registrations (events_of r) = [] ∧
  count is_LookupLoaded (events_of r) = 0.
Proof.
  cbv zeta. split; [apply _onActionTriggered_self|].
  assert (Hui : Forall (fun ev => is_ui ev = true)
                  (events_of (_onActionTriggered message action self))
                ∧ length (events_of (_onActionTriggered message action self)) ≤ 2).
  { rewrite _onActionTriggered_eq.
    destruct (decide _); [|split; [constructor|cbn; lia]].
    destruct (_lookups self) as [lk|]; [|split; [constructor|cbn; lia]].
    destruct (getRedirectUserFor _ _) as [url|].
    - rewrite events_of_mk. split; [|cbn; lia].
      destruct (QDesktopServices_openUrl host url); by repeat constructor.
    - split; [by repeat constructor|cbn; lia]. }
  destruct Hui as [Hui Hlen].
  destruct (ui_projections _ Hui) as (Hj & _ & Hc & Hp & Hcount).
  done.
Qed.

(** X5: the action callback raises in exactly one situation: the download
    action arrives while the lookup table is not loaded.  For any other
    action, or with the table loaded, it returns. *)
Theorem X5_callback_outcome (message : FirmwareUpdateCheckerMessage)
    (action : string) (self : FirmwareUpdateChecker) :
  outcome_of (_onActionTriggered message action self) =
    if decide (action = STR_ACTION_DOWNLOAD ∧ _lookups self = None)
    then Raised (AttributeError "NoneType" "getRedirectUserFor")
    else Returned tt.
Proof.
  rewrite _onActionTriggered_eq.
  destruct (decide (action = STR_ACTION_DOWNLOAD)) as [Ha|Ha].
  - destruct (_lookups self) as [lk|] eqn:Hl.
    + rewrite decide_False by (intros [_ ?]; done).
      by destruct (getRedirectUserFor _ _).
    + by rewrite decide_True.
  - by rewrite decide_False by (intros [? _]; done).
Qed.

(** X6: once any printer name has been recorded, which is the case as soon
    as a job holding the callback exists, the callback cannot raise: in every
    reachable state with a non-empty checked-set it returns for every message
    and action. *)
Theorem X6_callback_safe_after_first_check
    (message : FirmwareUpdateCheckerMessage) (action : string)
    (self : FirmwareUpdateChecker) :
  reachable self ->
  _checked_printer_names self ≠ ∅ ->
  outcome_of (_onActionTriggered message action self) = Returned tt.
Proof.
  intros Hr Hne.
  assert (Hl : _lookups self ≠ None).
  { intros Hnone. by apply Hne, reachable_checked_loaded. }
  rewrite _onActionTriggered_eq.
  destruct (decide _); [|done].
  destruct (_lookups self) as [lk|]; [|done].
  by destruct (getRedirectUserFor _ _).
Qed.

(** X7: the download URL attribute is never assigned after construction: it
    is None in every reachable state. *)
Theorem X7_download_url_never_set (self : FirmwareUpdateChecker) :
  reachable self -> _download_url self = None.
Proof.
  intros Hr. destruct (reachable_steps self Hr) as [evs Hsteps].
  by rewrite (steps_download_url _ _ _ Hsteps).
Qed.

(** X8: the lookup table is only ever the one built from the bundled resource
    file: in every reachable state it is either not loaded or that table. *)
Theorem X8_table_is_the_bundled_one (self : FirmwareUpdateChecker) :
  reachable self ->
  _lookups self = None ∨
  _lookups self = Some (machines_json host resource_path).
Proof.
  intros Hr. destruct (reachable_steps self Hr) as [evs Hsteps].
  destruct (steps_lookups _ _ _ Hsteps) as [(E & _)|(_ & E & _)].
  - left. by rewrite E.
  - by right.
Qed.

(** X9: in every reachable state the job reference, when set, is a job built
    with the action callback and with the table the extension currently
    holds, which is loaded, for a container whose definition name is in the
    checked-set. *)
Theorem X9_job_reference_well_formed (self : FirmwareUpdateChecker)
    (job : FirmwareUpdateCheckerJob) :
  reachable self ->
  _check_job self = Some job ->
  job_callback job = Slot_onActionTriggered ∧
  job_lookups job = _lookups self ∧
  _lookups self ≠ None ∧
  exists name, job_name job = Some name ∧ name ∈ _checked_printer_names self.
Proof.
  intros Hr Hjob. destruct (reachable_steps self Hr) as [evs Hsteps].
  by apply (steps_check_job_ok _ _ _ Hsteps check_job_ok_blank).
Qed.

(** ** Whole lifetimes *)

Lemma lifetime_eq calls :
  lifetime calls =
    ((run calls blank).1, events_of (__init__ blank) ++ (run calls blank).2).
Proof. unfold lifetime. cbv zeta. by rewrite __init___self. Qed.

Lemma __init___projections s0 :
  created_jobs (events_of (__init__ s0)) = [] ∧
  job_events (events_of (__init__ s0)) = [] ∧
  connections (events_of (__init__ s0)) =
    (if truthy (Preferences_getValue host "info/automatic_update_check")
     then [(containerAdded, Slot_onContainerAdded)] else [])
    ++ [(pluginsLoaded, Slot_onPluginsLoaded)] ∧
  preference_registrations (events_of (__init__ s0)) =
    [("info/automatic_update_check", PrefBool true)] ∧
  count is_LookupLoaded (events_of (__init__ s0)) = 0.
Proof. rewrite __init___events. by destruct (truthy _). Qed.

(** X10: over a whole lifetime there is at most one job per definition name:
    every job constructed is for a container with a definition name, these
    names are pairwise distinct, the checked-set at the end is exactly the
    set of these names, and so the number of jobs constructed is the size of
    the checked-set. *)
Theorem X10_one_job_per_name (calls : list Call) :
  exists names,
    job_name <$> created_jobs (lifetime calls).2 = Some <$> names ∧
    NoDup names ∧
    _checked_printer_names (lifetime calls).1 = list_to_set names ∧
    count is_JobCreated (lifetime calls).2
      = size (_checked_printer_names (lifetime calls).1).
Proof.
  rewrite lifetime_eq. simpl.
  destruct (steps_jobs _ _ _ (run_steps calls blank))
    as (names & Hj & Hnd & _ & Hc).
  destruct (__init___projections blank) as (Hi & _).
  exists names. rewrite created_jobs_app, Hi. simpl.
  split; [done|]. split; [done|].
  assert (Hset : _checked_printer_names (run calls blank).1 = list_to_set names).
  { rewrite Hc. simpl. set_solver. }
  split; [done|].
  rewrite count_created_jobs, created_jobs_app, Hi, Hset. simpl.
  rewrite size_list_to_set by done.
  by rewrite <- (length_fmap job_name), Hj, length_fmap.
Qed.

(** X11: over a whole lifetime every job is started right after it is
    constructed and nothing else is ever started: the job part of the event
    log is, job by job, its construction followed by its start. *)
Theorem X11_every_job_is_started (calls : list Call) :
  job_events (lifetime calls).2 =
    created_jobs (lifetime calls).2
    ≫= (fun job => [JobCreated job; JobStarted job]) ∧
  count is_JobStarted (lifetime calls).2 = count is_JobCreated (lifetime calls).2.
Proof.
  rewrite lifetime_eq. simpl.
  destruct (steps_job_log _ _ _ (run_steps calls blank)) as [Hj _].
  destruct (__init___projections blank) as (Hi & He & _).
  assert (Hlog : job_events (events_of (__init__ blank) ++ (run calls blank).2) =
            created_jobs (events_of (__init__ blank) ++ (run calls blank).2)
            ≫= (fun job => [JobCreated job; JobStarted job]))
    by by rewrite job_events_app, created_jobs_app, Hi, He.
  split; [done|].
  assert (Hstarted : forall evs,
            count is_JobStarted evs = count is_JobStarted (job_events evs)).
  { intros evs. unfold count, job_events.
    induction evs as [|ev evs IH]; [done|]. destruct ev; cbn; by rewrite ?IH. }
  rewrite Hstarted, Hlog, count_created_jobs.
  generalize (created_jobs (events_of (__init__ blank) ++ (run calls blank).2)).
  intros jobs. induction jobs as [|job jobs IH]; [done|].
  cbn. change (S (count is_JobStarted
                    (jobs ≫= (fun job => [JobCreated job; JobStarted job])))
               = S (length jobs)).
  by rewrite IH.
Qed.

(** X12: over a whole lifetime the signal connections are: the ones made at
    construction (container-added only when the automatic-update preference
    was truthy, then plugins-loaded), followed by one connection of
    [_onJobFinished] to the finished signal of each job constructed, in
    order.  Nothing is connected twice and nothing else is connected. *)
Theorem X12_signal_connections (calls : list Call) :
  connections (lifetime calls).2 =
    (if truthy (Preferences_getValue host "info/automatic_update_check")
     then [(containerAdded, Slot_onContainerAdded)] else [])
    ++ [(pluginsLoaded, Slot_onPluginsLoaded)]
    ++ ((fun job => (finished job, Slot_onJobFinished))
        <$> created_jobs (lifetime calls).2).
Proof.
  rewrite lifetime_eq. simpl.
  destruct (steps_job_log _ _ _ (run_steps calls blank)) as [_ Hc].
  destruct (__init___projections blank) as (Hi & _ & Hconn & _).
  rewrite connections_app, created_jobs_app, Hi, Hconn, Hc. simpl.
  by rewrite <- app_assoc.
Qed.

(** X13: over a whole lifetime the preferences registered are the
    automatic-update preference with default True and, if the table has been
    loaded by the end, the machine preferences of that table, each once; the
    resource file has been read once if the table is loaded and never
    otherwise. *)
Theorem X13_lifetime_preferences (calls : list Call) :
  preference_registrations (lifetime calls).2 =
    ("info/automatic_update_check", PrefBool true)
    :: match _lookups (lifetime calls).1 with
       | Some lk => machine_preferences lk
       | None => []
       end ∧
  count is_LookupLoaded (lifetime calls).2 =
    match _lookups (lifetime calls).1 with Some _ => 1 | None => 0 end.
Proof.
  rewrite lifetime_eq. simpl.
  destruct (__init___projections blank) as (_ & _ & _ & Hp & Hl).
  rewrite preference_registrations_app, count_app, Hp, Hl.
  destruct (steps_lookups _ _ _ (run_steps calls blank))
    as [(E & C & P)|(_ & E & C & P)]; by rewrite E, C, P.
Qed.

(** X14: a definition name that has gone through a check is never checked
    again: after a check of a container with a definition, and after any
    further calls (among them the job finishing), a check of any container
    whose definition has the same name returns with no host call and all
    attributes unchanged. *)
Theorem X14_checked_once_never_again (c c' : Container)
    (d d' : MachineDefinition) (silent silent' : bool) (calls : list Call)
    (self : FirmwareUpdateChecker) :
  definition c = Some d ->
  definition c' = Some d' ->
  getName d' = getName d ->
  let s1 := self_of (checkFirmwareVersion (Some c) silent self) in
  let s2 := (run calls s1).1 in
  checkFirmwareVersion (Some c') silent' s2 = (Returned tt, s2, []).
Proof.
  intros Hd Hd' Hname. cbv zeta.
  set (s1 := self_of (checkFirmwareVersion (Some c) silent self)).
  assert (Hl1 : _lookups s1 ≠ None) by apply checkFirmwareVersion_sets_lookups.
  assert (Hl2 : _lookups (run calls s1).1 ≠ None)
    by by rewrite run_keeps_lookups.
  rewrite checkFirmwareVersion_loaded by done.
  rewrite Hd', Hname. rewrite decide_True; [done|].
  apply (run_checked_monotone calls s1).
  by apply checkFirmwareVersion_records_name.
Qed.

(** X15: the extension keeps one job reference only.  After checks of two
    containers with different, not yet recorded definition names, two jobs
    have been constructed and the reference holds the second; a job-finished
    notification then clears the reference, whichever job it came from,
    while both names stay recorded. *)
Theorem X15_job_reference_tracks_latest (c1 c2 : Container)
    (d1 d2 : MachineDefinition) (silent1 silent2 : bool)
    (self : FirmwareUpdateChecker) :
  definition c1 = Some d1 ->
  definition c2 = Some d2 ->
  getName d1 ≠ getName d2 ->
  getName d1 ∉ _checked_printer_names self ->
  getName d2 ∉ _checked_printer_names self ->
  let r1 := checkFirmwareVersion (Some c1) silent1 self in
  let r2 := checkFirmwareVersion (Some c2) silent2 (self_of r1) in
  let r3 := _onJobFinished (self_of r2) in
  (exists job1 job2,
     job_container job1 = Some c1 ∧ job_container job2 = Some c2 ∧
     created_jobs (events_of r1 ++ events_of r2) = [job1; job2] ∧
     _check_job (self_of r1) = Some job1 ∧
     _check_job (self_of r2) = Some job2) ∧
  _check_job (self_of r3) = None ∧
  _checked_printer_names (self_of r3) =
    {[getName d2]} ∪ ({[getName d1]} ∪ _checked_printer_names self).
Proof.
  intros Hd1 Hd2 Hne Hn1 Hn2. cbv zeta.
  destruct (checkFirmwareVersion_unchecked c1 d1 silent1 self Hd1 Hn1)
    as (prefix1 & lookups1 & Hl1 & Hp1 & Heq1).
  cbv zeta in Heq1. rewrite Heq1, self_of_mk, events_of_mk.
  set (s1 := {| _download_url := _download_url self;
                _check_job := Some (job_for (Some c1) silent1 lookups1);
                _checked_printer_names :=
                  {[getName d1]} ∪ _checked_printer_names self;
                _lookups := lookups1 |}).
  assert (Hn2' : getName d2 ∉ _checked_printer_names s1).
  { simpl. intros Hin. apply elem_of_union in Hin as [Hin|Hin]; [|done].
    apply elem_of_singleton in Hin. by apply Hne. }
  rewrite (checkFirmwareVersion_loaded (Some c2) silent2 s1) by done.
  rewrite Hd2, decide_False by done.
  rewrite !self_of_mk, !events_of_mk. simpl.
  split; [|done].
  exists (job_for (Some c1) silent1 lookups1),
         (job_for (Some c2) silent2 lookups1).
  do 2 (split; [done|]). split; [|done].
  rewrite created_jobs_app.
  destruct Hp1 as [->| ->]; [done|].
  destruct (registrations_projections (machines_json host resource_path))
    as (Hj & _).
  unfold created_jobs in *. rewrite omap_app. cbn. by rewrite Hj.
Qed.

(** X16: a check triggered by the container-added signal is a silent one:
    for a GlobalStack whose definition name is not yet recorded,
    [_onContainerAdded] constructs and starts one job for that container
    with the silent flag set, and stores it as the job reference. *)
Theorem X16_automatic_check_is_silent (c : Container) (d : MachineDefinition)
    (self : FirmwareUpdateChecker) :
  class_of c = GlobalStack ->
  definition c = Some d ->
  getName d ∉ _checked_printer_names self ->
  let r := _onContainerAdded (Some c) self in
  exists job,
    job_silent job = true ∧ job_container job = Some c ∧
    created_jobs (events_of r) = [job] ∧
    job_events (events_of r) = [JobCreated job; JobStarted job] ∧
    _check_job (self_of r) = Some job.
Proof.
  intros Hclass Hd Hn. cbv zeta.
  unfold _onContainerAdded, isinstance_GlobalStack. rewrite Hclass.
  destruct (checkFirmwareVersion_unchecked c d true self Hd Hn)
    as (prefix & lookups & _ & Hp & Heq).
  cbv zeta in Heq. rewrite Heq, self_of_mk, events_of_mk.
  exists (job_for (Some c) true lookups).
  do 2 (split; [done|]).
  rewrite created_jobs_app, job_events_app.
  destruct Hp as [->| ->]; [done|].
  destruct (registrations_projections (machines_json host resource_path))
    as (Hj & He & _).
  unfold created_jobs, job_events in *. cbn. by rewrite Hj, He.
Qed.

End Extension.

(** ** Automatic checks: construction time against event time *)

(** C9: the extension is constructed under one host, [host0], and the
    container-added signal is emitted later, when the host may answer
    differently, [host1].  With the slots that construction connected to the
    signal, an emission runs a silent firmware check exactly when the
    automatic-update preference was truthy under [host0], at construction,
    and the container is a GlobalStack; otherwise the emission returns with
    no host call and no attribute changed, whatever the preference is by
    then.  No later call, and no sequence of later calls, connects anything
    to the signal. *)
Theorem C9_automatic_check_gate (host0 host1 : Host)
    (STR_ACTION_DOWNLOAD : string) (getSettingsKeyForMachine : string -> string)
    (s0 : FirmwareUpdateChecker) (container : option Container)
    (calls : list Call) (self : FirmwareUpdateChecker) :
  let slots := containerAdded_slots (events_of (__init__ host0 s0)) in
  containerAdded_emit host1 getSettingsKeyForMachine slots container self =
    (if truthy (Preferences_getValue host0 "info/automatic_update_check")
        && isinstance_GlobalStack container
     then checkFirmwareVersion host1 getSettingsKeyForMachine container true self
     else (Returned tt, self, [])) ∧
  (forall c,
     containerAdded_slots
       (events_of (perform host1 STR_ACTION_DOWNLOAD getSettingsKeyForMachine
                     c self)) = []) ∧
  containerAdded_slots
    (run host1 STR_ACTION_DOWNLOAD getSettingsKeyForMachine calls self).2 = [].
Proof.
  cbv zeta. split; [|split].
  - rewrite __init___slots.
    destruct (truthy (Preferences_getValue host0 _)); simpl.
    + apply containerAdded_emit_connected.
    + reflexivity.
  - intros c. apply perform_connects_nothing.
  - apply run_connects_nothing.
Qed.

(** ** The theorems at the sample values *)

(** C1 on a second printer of an already checked definition name, in the
    state reached by constructing the extension and checking the first. *)
Lemma C1_checked_name_is_skipped_witness :
  let self :=
    self_of (perform sample_host "download" sample_key
               (Call_checkFirmwareVersion (Some printer_a) false)
               (self_of (__init__ sample_host blank))) in
  reachable sample_host "download" sample_key self ∧
  definition printer_b = Some {| getName := "Ultimaker 3" |} ∧
  "Ultimaker 3" ∈ _checked_printer_names self ∧
  checkFirmwareVersion sample_host sample_key (Some printer_b) true self
    = (Returned tt, self, []).
Proof.
  cbv zeta.
  assert (Hr : reachable sample_host "download" sample_key
                 (self_of (perform sample_host "download" sample_key
                    (Call_checkFirmwareVersion (Some printer_a) false)
                    (self_of (__init__ sample_host blank)))))
    by (apply reachable_call, reachable_init).
  assert (Hin : "Ultimaker 3" ∈ _checked_printer_names
                 (self_of (perform sample_host "download" sample_key
                    (Call_checkFirmwareVersion (Some printer_a) false)
                    (self_of (__init__ sample_host blank)))))
    by (apply (bool_decide_unpack _); vm_compute; exact I).
  split; [exact Hr|]. split; [reflexivity|]. split; [exact Hin|].
  exact (C1_checked_name_is_skipped sample_host "download" sample_key
           printer_b {| getName := "Ultimaker 3" |} true _ Hr eq_refl Hin).
Defined.

(** C2 on the first printer, right after construction. *)
Lemma C2_unchecked_name_starts_one_job_witness :
  definition printer_a = Some {| getName := "Ultimaker 3" |} ∧
  ("Ultimaker 3" ∉ _checked_printer_names blank) ∧
  (let r := checkFirmwareVersion sample_host sample_key (Some printer_a) true blank in
   outcome_of r = Returned tt ∧
   _checked_printer_names (self_of r) = {["Ultimaker 3"]} ∪ ∅ ∧
   exists job,
     job_container job = Some printer_a ∧ job_silent job = true ∧
     _check_job (self_of r) = Some job ∧
     job_events (events_of r) = [JobCreated job; JobStarted job] ∧
     count is_JobCreated (events_of r) = 1 ∧
     count is_JobStarted (events_of r) = 1).
Proof.
  assert (Hnotin : "Ultimaker 3" ∉ _checked_printer_names blank)
    by (apply (bool_decide_unpack _); vm_compute; exact I).
  split; [reflexivity|]. split; [exact Hnotin|].
  exact (C2_unchecked_name_starts_one_job sample_host sample_key printer_a
           {| getName := "Ultimaker 3" |} true blank eq_refl Hnotin).
Defined.

(** C4 on a machine id the sample table does not have, and on one it has
    while the sample desktop cannot open URLs. *)
Lemma C4_failed_download_is_logged_witness :
  _lookups loaded_and_checked = Some sample_table ∧
  getRedirectUserFor sample_table "1234" = None ∧
  getRedirectUserFor sample_table "9066" = Some "https://ultimaker.com/firmware" ∧
  QDesktopServices_openUrl sample_host "https://ultimaker.com/firmware" = false ∧
  events_of (_onActionTriggered sample_host "download"
               {| getMachineId := "1234" |} "download" loaded_and_checked)
    = [Log "e" "Can't find URL for 1234"] ∧
  events_of (_onActionTriggered sample_host "download"
               {| getMachineId := "9066" |} "download" loaded_and_checked)
    = [OpenUrl "https://ultimaker.com/firmware";
       Log "e" "Can't reach URL: https://ultimaker.com/firmware"].
Proof.
  assert (Hmiss : getRedirectUserFor sample_table "1234" = None)
    by (vm_compute; reflexivity).
  assert (Hhit : getRedirectUserFor sample_table "9066"
                 = Some "https://ultimaker.com/firmware")
    by (vm_compute; reflexivity).
  split; [reflexivity|]. split; [exact Hmiss|]. split; [exact Hhit|].
  split; [reflexivity|]. split.
  - destruct (C4_failed_download_is_logged sample_host "download"
                {| getMachineId := "1234" |} loaded_and_checked sample_table
                eq_refl (or_introl Hmiss)) as (_ & _ & Hev & _).
    rewrite Hev. simpl. rewrite Hmiss. reflexivity.
  - destruct (C4_failed_download_is_logged sample_host "download"
                {| getMachineId := "9066" |} loaded_and_checked sample_table
                eq_refl
                (or_intror (ex_intro _ "https://ultimaker.com/firmware"
                              (conj Hhit eq_refl)))) as (_ & _ & Hev & _).
    rewrite Hev. simpl. rewrite Hhit. reflexivity.
Defined.

(** C5 on a machine id of the sample table. *)
Lemma C5_download_opens_redirect_url_witness :
  _lookups loaded_and_checked = Some sample_table ∧
  getRedirectUserFor sample_table "9511" = Some "https://ultimaker.com/firmware" ∧
  List.filter is_OpenUrl
    (events_of (_onActionTriggered sample_host "download"
                  {| getMachineId := "9511" |} "download" loaded_and_checked))
  = [OpenUrl "https://ultimaker.com/firmware"].
Proof.
  assert (Hhit : getRedirectUserFor sample_table "9511"
                 = Some "https://ultimaker.com/firmware")
    by (vm_compute; reflexivity).
  split; [reflexivity|]. split; [exact Hhit|].
  exact (proj1 (proj2 (proj2
    (C5_download_opens_redirect_url sample_host "download"
       {| getMachineId := "9511" |} loaded_and_checked sample_table
       "https://ultimaker.com/firmware" eq_refl Hhit)))).
Defined.

(** C6 on the freshly constructed extension and the sample table. *)
Lemma C6_one_preference_per_machine_witness :
  _lookups blank = None ∧
  (let r := _onPluginsLoaded sample_host sample_key blank in
   preference_registrations (events_of r) =
     (fun machine_id => (sample_key machine_id, PrefStr ""))
     <$> getMachineIds sample_table ∧
   length (preference_registrations (events_of r)) = size sample_table).
Proof.
  split; [reflexivity|].
  destruct (C6_one_preference_per_machine sample_host sample_key blank eq_refl)
    as (_ & _ & Hreg & _ & _ & Hlen).
  split; [exact Hreg|exact Hlen].
Defined.

(** C10 on the two sample printers, which share their definition name. *)
Lemma C10_guard_keyed_by_definition_name_witness :
  printer_a ≠ printer_b ∧
  (getName {| getName := "Ultimaker 3" |} ∉ _checked_printer_names blank) ∧
  (let r1 := checkFirmwareVersion sample_host sample_key (Some printer_a) true blank in
   let r2 := checkFirmwareVersion sample_host sample_key (Some printer_b) true
               (self_of r1) in
   (exists job,
      job_container job = Some printer_a ∧
      job_events (events_of r1) = [JobCreated job; JobStarted job]) ∧
   r2 = (Returned tt, self_of r1, [])).
Proof.
  assert (Hne : printer_a ≠ printer_b) by (intros H; discriminate H).
  assert (Hnotin : getName {| getName := "Ultimaker 3" |}
                   ∉ _checked_printer_names blank)
    by (apply (bool_decide_unpack _); vm_compute; exact I).
  split; [exact Hne|]. split; [exact Hnotin|].
  exact (C10_guard_keyed_by_definition_name sample_host sample_key
           printer_a printer_b {| getName := "Ultimaker 3" |}
           {| getName := "Ultimaker 3" |} true true blank
           Hne eq_refl eq_refl eq_refl Hnotin).
Defined.

(** X3 on a container without a definition, right after construction. *)
Lemma X3_failed_check_still_loads_witness :
  _lookups blank = None ∧
  definition_name (Some quality_draft) = None ∧
  (let r := checkFirmwareVersion sample_host sample_key (Some quality_draft)
              false blank in
   _lookups (self_of r) = Some (machines_json sample_host (resource_path sample_host)) ∧
   _checked_printer_names (self_of r) = _checked_printer_names blank).
Proof.
  split; [reflexivity|]. split; [reflexivity|].
  destruct (X3_failed_check_still_loads sample_host sample_key
              (Some quality_draft) false blank eq_refl eq_refl)
    as (_ & _ & Hl & _ & Hc & _).
  split; [exact Hl|exact Hc].
Defined.

(** X6 in the state reached by constructing the extension and checking the
    first sample printer. *)
Lemma X6_callback_safe_after_first_check_witness :
  let self :=
    self_of (perform sample_host "download" sample_key
               (Call_checkFirmwareVersion (Some printer_a) false)
               (self_of (__init__ sample_host blank))) in
  reachable sample_host "download" sample_key self ∧
  _checked_printer_names self ≠ ∅ ∧
  outcome_of (_onActionTriggered sample_host "download"
                {| getMachineId := "1234" |} "download" self) = Returned tt.
Proof.
  cbv zeta.
  assert (Hr : reachable sample_host "download" sample_key
                 (self_of (perform sample_host "download" sample_key
                    (Call_checkFirmwareVersion (Some printer_a) false)
                    (self_of (__init__ sample_host blank)))))
    by (apply reachable_call, reachable_init).
  assert (Hne : _checked_printer_names
                  (self_of (perform sample_host "download" sample_key
                     (Call_checkFirmwareVersion (Some printer_a) false)
                     (self_of (__init__ sample_host blank)))) ≠ ∅).
  { intros Hempty.
    assert (Hin : "Ultimaker 3" ∈ _checked_printer_names
                   (self_of (perform sample_host "download" sample_key
                      (Call_checkFirmwareVersion (Some printer_a) false)
                      (self_of (__init__ sample_host blank)))))
      by (apply (bool_decide_unpack _); vm_compute; exact I).
    rewrite Hempty in Hin. exact (not_elem_of_empty _ Hin). }
  split; [exact Hr|]. split; [exact Hne|].
  exact (X6_callback_safe_after_first_check sample_host "download" sample_key
           {| getMachineId := "1234" |} "download" _ Hr Hne).
Defined.

(** X7 in the same state. *)
Lemma X7_download_url_never_set_witness :
  let self :=
    self_of (perform sample_host "download" sample_key
               (Call_checkFirmwareVersion (Some printer_a) false)
               (self_of (__init__ sample_host blank))) in
  reachable sample_host "download" sample_key self ∧ _download_url self = None.
Proof.
  cbv zeta.
  assert (Hr : reachable sample_host "download" sample_key
                 (self_of (perform sample_host "download" sample_key
                    (Call_checkFirmwareVersion (Some printer_a) false)
                    (self_of (__init__ sample_host blank)))))
    by (apply reachable_call, reachable_init).
  split; [exact Hr|].
  exact (X7_download_url_never_set sample_host "download" sample_key _ Hr).
Defined.

(** X8 in the same state. *)
Lemma X8_table_is_the_bundled_one_witness :
  let self :=
    self_of (perform sample_host "download" sample_key
               (Call_checkFirmwareVersion (Some printer_a) false)
               (self_of (__init__ sample_host blank))) in
  reachable sample_host "download" sample_key self ∧
  (_lookups self = None ∨
   _lookups self = Some (machines_json sample_host (resource_path sample_host))).
Proof.
  cbv zeta.
  assert (Hr : reachable sample_host "download" sample_key
                 (self_of (perform sample_host "download" sample_key
                    (Call_checkFirmwareVersion (Some printer_a) false)
                    (self_of (__init__ sample_host blank)))))
    by (apply reachable_call, reachable_init).
  split; [exact Hr|].
  exact (X8_table_is_the_bundled_one sample_host "download" sample_key _ Hr).
Defined.

(** X9 in the same state, whose job reference is the job of the first
    sample printer. *)
Lemma X9_job_reference_well_formed_witness :
  let self :=
    self_of (perform sample_host "download" sample_key
               (Call_checkFirmwareVersion (Some printer_a) false)
               (self_of (__init__ sample_host blank))) in
  let job := job_for (Some printer_a) false (Some sample_table) in
  reachable sample_host "download" sample_key self ∧
  _check_job self = Some job ∧
  job_lookups job = _lookups self ∧
  (exists name, job_name job = Some name ∧ name ∈ _checked_printer_names self).
Proof.
  cbv zeta.
  assert (Hr : reachable sample_host "download" sample_key
                 (self_of (perform sample_host "download" sample_key
                    (Call_checkFirmwareVersion (Some printer_a) false)
                    (self_of (__init__ sample_host blank)))))
    by (apply reachable_call, reachable_init).
  assert (Hjob : _check_job
                   (self_of (perform sample_host "download" sample_key
                      (Call_checkFirmwareVersion (Some printer_a) false)
                      (self_of (__init__ sample_host blank))))
                 = Some (job_for (Some printer_a) false (Some sample_table)))
    by (vm_compute; reflexivity).
  destruct (X9_job_reference_well_formed sample_host "download" sample_key
              _ _ Hr Hjob) as (_ & Hl & _ & Hname).
  split; [exact Hr|]. split; [exact Hjob|]. split; [exact Hl|exact Hname].
Defined.

(** X14 on the two sample printers of one definition name, with the first
    job finishing in between. *)
Lemma X14_checked_once_never_again_witness :
  definition printer_a = Some {| getName := "Ultimaker 3" |} ∧
  definition printer_b = Some {| getName := "Ultimaker 3" |} ∧
  (let s1 := self_of (checkFirmwareVersion sample_host sample_key
                        (Some printer_a) true blank) in
   let s2 := (run sample_host "download" sample_key [Call_onJobFinished] s1).1 in
   checkFirmwareVersion sample_host sample_key (Some printer_b) false s2
     = (Returned tt, s2, [])).
Proof.
  split; [reflexivity|]. split; [reflexivity|].
  exact (X14_checked_once_never_again sample_host "download" sample_key
           printer_a printer_b {| getName := "Ultimaker 3" |}
           {| getName := "Ultimaker 3" |} true false [Call_onJobFinished] blank
           eq_refl eq_refl eq_refl).
Defined.

(** X15 on two sample printers of different definition names. *)
Lemma X15_job_reference_tracks_latest_witness :
  "Ultimaker 3" ≠ "Ultimaker S5" ∧
  ("Ultimaker 3" ∉ _checked_printer_names blank) ∧
  ("Ultimaker S5" ∉ _checked_printer_names blank) ∧
  (let r1 := checkFirmwareVersion sample_host sample_key (Some printer_a)
               true blank in
   let r2 := checkFirmwareVersion sample_host sample_key (Some printer_s5)
               true (self_of r1) in
   let r3 := _onJobFinished (self_of r2) in
   _check_job (self_of r3) = None ∧
   _checked_printer_names (self_of r3) =
     {["Ultimaker S5"]} ∪ ({["Ultimaker 3"]} ∪ _checked_printer_names blank)).
Proof.
  assert (Hne : "Ultimaker 3" ≠ "Ultimaker S5") by (intros H; discriminate H).
  assert (Hn1 : "Ultimaker 3" ∉ _checked_printer_names blank)
    by (apply (bool_decide_unpack _); vm_compute; exact I).
  assert (Hn2 : "Ultimaker S5" ∉ _checked_printer_names blank)
    by (apply (bool_decide_unpack _); vm_compute; exact I).
  split; [exact Hne|]. split; [exact Hn1|]. split; [exact Hn2|].
  exact (proj2 (X15_job_reference_tracks_latest sample_host sample_key
           printer_a printer_s5 {| getName := "Ultimaker 3" |}
           {| getName := "Ultimaker S5" |} true true blank
           eq_refl eq_refl Hne Hn1 Hn2)).
Defined.

(** X16 on the first sample printer, right after construction. *)
Lemma X16_automatic_check_is_silent_witness :
  class_of printer_a = GlobalStack ∧
  definition printer_a = Some {| getName := "Ultimaker 3" |} ∧
  ("Ultimaker 3" ∉ _checked_printer_names blank) ∧
  (let r := _onContainerAdded sample_host sample_key (Some printer_a) blank in
   exists job,
     job_silent job = true ∧ job_container job = Some printer_a ∧
     created_jobs (events_of r) = [job] ∧
     job_events (events_of r) = [JobCreated job; JobStarted job] ∧
     _check_job (self_of r) = Some job).
Proof.
  assert (Hn : "Ultimaker 3" ∉ _checked_printer_names blank)
    by (apply (bool_decide_unpack _); vm_compute; exact I).
  split; [reflexivity|]. split; [reflexivity|]. split; [exact Hn|].
  exact (X16_automatic_check_is_silent sample_host sample_key printer_a
           {| getName := "Ultimaker 3" |} blank eq_refl eq_refl Hn).
Defined.

(** Constructed with the preference off, the extension ignores a new printer
    even if the preference is on by the time the printer is added. *)
Example constructed_off_then_switched_on :
  containerAdded_emit sample_host sample_key
    (containerAdded_slots (events_of (__init__ host_updates_off blank)))
    (Some printer_a) blank
  = (Returned tt, blank, []).
Proof. reflexivity. Qed.

(** Constructed with the preference on, it checks a new printer even if the
    preference is off by the time the printer is added. *)
Example constructed_on_then_switched_off :
  job_silent <$> created_jobs (events_of
    (containerAdded_emit host_updates_off sample_key
       (containerAdded_slots (events_of (__init__ sample_host blank)))
       (Some printer_a) blank))
  = [true].
Proof. vm_compute. reflexivity. Qed.

(** A quality container has no [definition] attribute: the check raises on
    its class. *)
Example check_of_quality_container :
  outcome_of (checkFirmwareVersion sample_host sample_key (Some quality_draft)
                false blank)
  = Raised (AttributeError "InstanceContainer" "definition").
Proof. vm_compute. reflexivity. Qed.
